(** * azure_api: the request executor and the artifact resolver

    A shallow embedding of [src/azure_api.py] (class [AzureAPI]).

    - Python values that the client handles (decoded JSON, raw bytes, the
      strings it formats) are the inductive type [value]; the dynamic
      operations the source applies to them (truthiness, subscripting,
      [.get], [.split], iteration, [str()]) are total functions that return
      either a value or the Python exception the operation raises.
    - The network is a function [service] from the log of everything the
      client did so far and the request it sends now to the reply; each
      request and each [time.sleep] is appended to the log, so network calls
      and sleeps can be counted, also on runs that end in an exception.
    - Operations are computations in a small state-and-exception monad over
      that log.  The [while] loop of [__run_request] is not structurally
      terminating (a status of 600 or more is neither returned nor counted as
      a retry), so it runs on [fuel]; running out is the result [Diverge].

    Names not defined in the source file are read as follows:
    [requests.codes.ok] = 200, [requests.codes.created] = 201,
    [HTTPResponseCode.INTERNAL_SERVER_ERROR] = 500, [Response.raise_for_status]
    raises for 400 <= status < 600 (the behaviour of the requests library),
    [jsons.loads] / [jsons.dumps] are parameters, and [self.base_headers] is
    the header set stored by [__init__].  JSON numbers are integers. *)

From Stdlib Require Import String Ascii ZArith List Bool Lia DecimalString.
Import ListNotations.

Local Open Scope string_scope.
Local Open Scope Z_scope.

Set Warnings "-register-all,-notation-for-abbreviation".

(* ================================================================== *)
(** ** Python values *)

Inductive value : Type :=
| VNone
| VBool (b : bool)
| VInt (n : Z)
| VStr (s : string)
| VBytes (s : string)
| VList (l : list value)
| VDict (kvs : list (string * value)).

(** A dict with string keys, in insertion order. *)
Definition dict := list (string * value).

Inductive exn : Type :=
| ValueError (msg : string)
| GenericException (msg : string)       (* [raise Exception(...)] *)
| TimeoutError (msg : string)
| TypeError
| KeyError (key : value)
| IndexError
| AttributeError
| RequestException                      (* connection failure, timeout *)
| HTTPError (status : Z)                (* from [raise_for_status] *)
| DecodeError.                          (* from [decode] / [jsons.loads] *)

(** The outcome of evaluating an expression or running an operation. *)
Inductive res (A : Type) : Type :=
| Ok (a : A)
| Raise (e : exn)
| Diverge.

Arguments Ok {A} a.
Arguments Raise {A} e.
Arguments Diverge {A}.

Definition is_raise {A} (r : res A) : bool :=
  match r with Raise _ => true | _ => false end.

Module Py.

(** [bool(v)] *)
Definition truthy (v : value) : bool :=
  match v with
  | VNone => false
  | VBool b => b
  | VInt n => negb (n =? 0)
  | VStr s => negb (String.eqb s "")
  | VBytes s => negb (String.eqb s "")
  | VList l => match l with [] => false | _ => true end
  | VDict kvs => match kvs with [] => false | _ => true end
  end.

Fixpoint lookup (d : dict) (k : string) : option value :=
  match d with
  | [] => None
  | (k', v) :: rest => if String.eqb k k' then Some v else lookup rest k
  end.

(** [d[k] = v] on a dict: replaces in place, or appends a new key. *)
Fixpoint set (d : dict) (k : string) (v : value) : dict :=
  match d with
  | [] => [(k, v)]
  | (k', v') :: rest =>
      if String.eqb k k' then (k', v) :: rest else (k', v') :: set rest k v
  end.

(** [{**a, **b}] *)
Definition merge (a b : dict) : dict :=
  fold_left (fun d kv => set d (fst kv) (snd kv)) b a.

Fixpoint chars (s : string) : list string :=
  match s with
  | EmptyString => []
  | String c r => String c EmptyString :: chars r
  end.

Fixpoint codes (s : string) : list Z :=
  match s with
  | EmptyString => []
  | String c r => Z.of_N (N_of_ascii c) :: codes r
  end.

(** Indexing a sequence of length [length l] with a Python integer. *)
Definition index {A} (l : list A) (i : Z) : res A :=
  let j := if i <? 0 then i + Z.of_nat (length l) else i in
  if j <? 0 then Raise IndexError
  else match nth_error l (Z.to_nat j) with
       | Some x => Ok x
       | None => Raise IndexError
       end.

(** [v[key]] with a string key. *)
Definition getitem (v : value) (key : string) : res value :=
  match v with
  | VDict kvs =>
      match lookup kvs key with
      | Some x => Ok x
      | None => Raise (KeyError (VStr key))
      end
  | _ => Raise TypeError
  end.

(** [v[i]] with an integer index. *)
Definition getindex (v : value) (i : Z) : res value :=
  match v with
  | VList l => index l i
  | VStr s => index (map VStr (chars s)) i
  | VBytes s => index (map VInt (codes s)) i
  | VDict _ => Raise (KeyError (VInt i))
  | _ => Raise TypeError
  end.

(** [v.get(key)] *)
Definition get (v : value) (key : string) : res value :=
  match v with
  | VDict kvs =>
      match lookup kvs key with
      | Some x => Ok x
      | None => Ok VNone
      end
  | _ => Raise AttributeError
  end.

(** [s.split(sep)] for a one-character separator. *)
Fixpoint split_on (sep : ascii) (s : string) : list string :=
  match s with
  | EmptyString => [EmptyString]
  | String c r =>
      if Ascii.eqb c sep then EmptyString :: split_on sep r
      else match split_on sep r with
           | h :: t => String c h :: t
           | [] => [String c EmptyString]
           end
  end.

(** The first item of [s.split(sep)]. *)
Definition leading_segment (sep : ascii) (s : string) : string :=
  hd EmptyString (split_on sep s).

(** [v.split(sep)] *)
Definition split (v : value) (sep : ascii) : res value :=
  match v with
  | VStr s => Ok (VList (map VStr (split_on sep s)))
  | VBytes _ => Raise TypeError
  | _ => Raise AttributeError
  end.

(** The items a [for] loop over [v] visits. *)
Definition iter (v : value) : res (list value) :=
  match v with
  | VList l => Ok l
  | VDict kvs => Ok (map (fun kv => VStr (fst kv)) kvs)
  | VStr s => Ok (map VStr (chars s))
  | VBytes s => Ok (map VInt (codes s))
  | _ => Raise TypeError
  end.

(** [v > 0] *)
Definition gt0 (v : value) : res bool :=
  match v with
  | VInt n => Ok (0 <? n)
  | VBool b => Ok b
  | _ => Raise TypeError
  end.

(** [str(n)] for an integer. *)
Definition str_of_int (n : Z) : string :=
  NilZero.string_of_int (Z.to_int n).

Section Str.
(** [str()] of bytes, lists and dicts (their [repr]) is not modelled. *)
Variable repr : value -> string.

(** [str(v)], as an f-string formats [{v}]. *)
Definition str (v : value) : string :=
  match v with
  | VNone => "None"
  | VBool true => "True"
  | VBool false => "False"
  | VInt n => str_of_int n
  | VStr s => s
  | _ => repr v
  end.
End Str.

End Py.

(* ================================================================== *)
(** ** The network, the log and the monad of operations *)

Inductive Method : Type := GET | POST | PATCH.

(** The keyword arguments [request_args] handed to [requests.get/post/patch]. *)
Record Request : Type := mkRequest {
  req_method : Method;
  req_url : string;
  req_headers : list (string * string);
  req_timeout : Z;
  req_params : dict;
  req_data : option string
}.

Record Response : Type := mkResponse {
  status_code : Z;
  content : string
}.

(** What one call of [request_type] on the request arguments does: it
    returns a response or raises a transport-level exception. *)
Inductive Reply : Type :=
| Responded (r : Response)
| Failed (e : exn).

Inductive Event : Type :=
| Sent (r : Request)
| Slept (seconds : Z).

Definition Log := list Event.

Definition M (A : Type) : Type := Log -> res A * Log.

Definition ret {A} (a : A) : M A := fun log => (Ok a, log).

Definition raise {A} (e : exn) : M A := fun log => (Raise e, log).

Definition lift {A} (r : res A) : M A := fun log => (r, log).

Definition bind {A B} (c : M A) (f : A -> M B) : M B :=
  fun log =>
    match c log with
    | (Ok a, log') => f a log'
    | (Raise e, log') => (Raise e, log')
    | (Diverge, log') => (Diverge, log')
    end.

Declare Scope py_scope.
Delimit Scope py_scope with py.
Notation "x <- c ;; k" := (bind c (fun x => k))
  (at level 61, c at next level, right associativity) : py_scope.
Notation "' pat <- c ;; k" := (bind c (fun x => match x with pat => k end))
  (at level 61, pat pattern, c at next level, right associativity) : py_scope.
Local Open Scope py_scope.

(** A computation only appends to the log. *)
Definition appends {A} (c : M A) : Prop :=
  forall log, exists t, snd (c log) = (log ++ t)%list.

(** Network calls and sleeps recorded in a log. *)
Definition calls (log : Log) : list Request :=
  flat_map (fun e => match e with Sent r => [r] | Slept _ => [] end) log.

Definition sleeps (log : Log) : list Z :=
  flat_map (fun e => match e with Sent _ => [] | Slept s => [s] end) log.

(* ================================================================== *)
(** ** The client *)

Definition MAX_AZURE_API_RETRIES : Z := 3.
Definition INVOKE_REST_API_TIMEOUT_SECONDS : Z := 30.
Definition AZURE_API_DOWNLOAD_TIMEOUT_SECONDS : Z := 600.

(** The instance attributes set by [__init__] (the logger apart). *)
Record AzureAPI : Type := mkAzureAPI {
  base_url : string;
  base_params : dict;
  headers : list (string * string);
  retries : Z
}.

Definition __init__ (organization project : string) (retries : Z) : AzureAPI :=
  {| base_url := "https://dev.azure.com/" ++ organization ++ "/" ++ project ++ "/_apis";
     base_params := [("api-version", VStr "5.1")];
     headers := [("Content-Type", "application/json")];
     retries := retries |}.

(** [requests.Response.raise_for_status]: the exception it raises, if any. *)
Definition raise_for_status (r : Response) : option exn :=
  if (400 <=? status_code r) && (status_code r <? 600)
  then Some (HTTPError (status_code r)) else None.

(** [status_code == requests.codes.ok or status_code == requests.codes.created] *)
Definition is_success (status : Z) : bool :=
  (status =? 200) || (status =? 201).

(** How one pass through the [try] block of [__run_request] ends. *)
Inductive attempt : Type :=
| Returns (v : value)
| Raises (e : exn)
| FallsThrough.

(* ================================================================== *)
(** ** Concrete clients and services, to run the model on *)

Module Demo.

Definition client : AzureAPI := __init__ "org" "proj" MAX_AZURE_API_RETRIES.

Definition api : string := "https://dev.azure.com/org/proj/_apis".

Definition repo : value := VDict [("id", VStr "r1"); ("name", VStr "app")].
Definition new_repo : value := VDict [("id", VStr "r2"); ("name", VStr "fresh")].
Definition lib_repo : value := VDict [("id", VStr "r3"); ("name", VStr "lib")].

Definition pull_request : value :=
  VDict [("pullRequestId", VInt 42);
         ("sourceRefName", VStr "refs/heads/feature/x");
         ("status", VStr "active")].

Definition build (id : Z) (number : string) : value :=
  VDict [("id", VInt id); ("buildNumber", VStr number);
         ("status", VStr "completed"); ("result", VStr "succeeded")].

Definition builds : list value :=
  [build 110 "1.2.8-f00d"; build 109 "1.2.7-beef"; build 108 "1.2.6-cafe";
   build 107 "1.2.5-d00d"; build 106 "1.2.3-abcdef"; build 105 "1.2.2-0001";
   build 104 "1.2.1-0002"; build 103 "1.2.0-0003"; build 102 "1.1.9-0004";
   build 101 "1.1.8-0005"].

Definition lib_builds : list value :=
  [build 202 "0.9.1-aaaa"; build 201 "0.9.0-bbbb"].

Definition artifact : value :=
  VDict [("id", VInt 7); ("name", VStr "X");
         ("resource",
          VDict [("type", VStr "Container");
                 ("downloadUrl", VStr "https://dev.azure.com/org/_apis/X.zip")])].

(** A decoder for the bodies the services below send. *)
Definition loads (body : string) : option value :=
  if String.eqb body "repo" then Some repo
  else if String.eqb body "new-repo" then Some new_repo
  else if String.eqb body "lib-repo" then Some lib_repo
  else if String.eqb body "prs" then
    Some (VDict [("count", VInt 1); ("value", VList [pull_request])])
  else if String.eqb body "no-prs" then
    Some (VDict [("count", VInt 0); ("value", VList [])])
  else if String.eqb body "builds" then
    Some (VDict [("count", VInt 10); ("value", VList builds)])
  else if String.eqb body "lib-builds" then
    Some (VDict [("count", VInt 2); ("value", VList lib_builds)])
  else if String.eqb body "no-builds" then
    Some (VDict [("count", VInt 0); ("value", VList [])])
  else if String.eqb body "artifact" then Some artifact
  else if String.eqb body "payload" then Some (VDict [("ok", VBool true)])
  else None.

Definition dumps (v : value) : string := "body".

Definition repr (v : value) : string := "<object>".

Definition ok (body : string) : Reply := Responded (mkResponse 200 body).

Definition not_found : Reply := Responded (mkResponse 404 "not found").

(** A project with the repositories "app" (id r1; builds 110..101, most
    recent first), "fresh" (id r2; no build at all) and "lib" (id r3;
    builds 202 and 201).  [prs] is the body of the pull-request search and
    [published] lists the builds that have the artifact. *)
Definition project (prs : string) (published : list string)
  : Log -> Request -> Reply :=
  fun _ req =>
    let url := req_url req in
    if String.eqb url (api ++ "/git/repositories/app") then ok "repo"
    else if String.eqb url (api ++ "/git/repositories/fresh") then ok "new-repo"
    else if String.eqb url (api ++ "/git/repositories/lib") then ok "lib-repo"
    else if String.eqb url (api ++ "/git/repositories/r1/pullrequests") then ok prs
    else if String.eqb url (api ++ "/build/builds") then
      match Py.lookup (req_params req) "repositoryId" with
      | Some (VStr "r1") => ok "builds"
      | Some (VStr "r3") => ok "lib-builds"
      | _ => ok "no-builds"
      end
    else if existsb (fun id => String.eqb url (api ++ "/build/builds/" ++ id ++ "/artifacts"))
                    published
    then ok "artifact"
    else not_found.

(** A service that is down: every call raises a transport exception. *)
Definition unreachable : Log -> Request -> Reply :=
  fun _ _ => Failed RequestException.

(** A service that answers every call with the given status. *)
Definition always (status : Z) (body : string) : Log -> Request -> Reply :=
  fun _ _ => Responded (mkResponse status body).

(** A service that answers the calls it receives, in order, with the given
    statuses, and with 200 once the list is used up. *)
Definition scripted (statuses : list Z) (body : string)
  : Log -> Request -> Reply :=
  fun log _ =>
    Responded (mkResponse (nth (length (calls log)) statuses 200) body).

(** A decoder for the answers of [branches] below. *)
Definition ref_loads (body : string) : option value :=
  if String.eqb body "one-ref" then
    Some (VDict [("count", VInt 1);
                 ("value", VList [VDict [("name", VStr "refs/heads/release")]])])
  else if String.eqb body "no-refs" then
    Some (VDict [("count", VInt 0); ("value", VList [])])
  else None.

(** The branch release exists in the repositories r1 and r3; r2 has no such
    branch and any other repository is unknown. *)
Definition branches : Log -> Request -> Reply :=
  fun _ req =>
    let url := req_url req in
    if String.eqb url (api ++ "/git/repositories/r1/refs") then ok "one-ref"
    else if String.eqb url (api ++ "/git/repositories/r2/refs") then ok "no-refs"
    else if String.eqb url (api ++ "/git/repositories/r3/refs") then ok "one-ref"
    else not_found.

(** A service that answers the calls it receives, in order, with status 200
    and the given bodies, and with the body payload once the list is used
    up. *)
Definition bodies (l : list string) : Log -> Request -> Reply :=
  fun log _ => ok (nth (length (calls log)) l "payload").

(** The project above with the build 109 publishing the artifact, while
    every artifact check of the newest build 110 fails in transport. *)
Definition newest_unreachable : Log -> Request -> Reply :=
  fun log req =>
    if String.eqb (req_url req) (api ++ "/build/builds/110/artifacts")
    then Failed RequestException
    else project "prs" ["109"] log req.

(** A decoder for a repository answer whose id is null. *)
Definition anonymous_loads (body : string) : option value :=
  Some (VDict [("id", VNone); ("name", VStr "app")]).

(** [os.path.join] on a directory without trailing separator. *)
Definition join (directory file : string) : string := directory ++ "/" ++ file.

(** What the executor returns for the branch lookups that [branches]
    answers. *)
Definition ref_answer (repo : string) : value :=
  if String.eqb repo "r1" || String.eqb repo "r3" then
    VDict [("count", VInt 1);
           ("value", VList [VDict [("name", VStr "refs/heads/release")]])]
  else if String.eqb repo "r2" then
    VDict [("count", VInt 0); ("value", VList [])]
  else VNone.

(** A service that answers the first [n] calls with status 500 and then
    drops the connection. *)
Definition drops_after (n : nat) : Log -> Request -> Reply :=
  fun log _ =>
    if (length (calls log) <? n)%nat then Responded (mkResponse 500 "busy")
    else Failed RequestException.

(** The project above for a caller who may not list builds: the build
    search is answered with 403. *)
Definition search_forbidden : Log -> Request -> Reply :=
  fun log req =>
    if String.eqb (req_url req) (api ++ "/build/builds")
    then Responded (mkResponse 403 "forbidden")
    else project "prs" ["106"] log req.

(** An artifact whose download URL the service sends as null, and a
    decoder that reads the artifact body as that. *)
Definition artifact_without_url : value :=
  VDict [("id", VInt 7); ("name", VStr "X");
         ("resource", VDict [("type", VStr "Container"); ("downloadUrl", VNone)])].

Definition null_url_loads (body : string) : option value :=
  if String.eqb body "artifact" then Some artifact_without_url else loads body.

End Demo.

Section Client.

(** [jsons.loads(content.decode('utf-8'))]; [None] when either raises. *)
Variable loads : string -> option value.
(** [jsons.dumps] *)
Variable dumps : value -> string.
(** [str()] of bytes, lists and dicts. *)
Variable repr : value -> string.
(** The remote service. *)
Variable service : Log -> Request -> Reply.
Variable self : AzureAPI.
(** Bound on the iterations of one [__run_request] loop. *)
Variable fuel : nat.

(** Lines 192-198. *)
Definition request_args (request_type : Method) (url : string)
    (params : option dict) (data : value) : Request :=
  {| req_method := request_type;
     req_url := base_url self ++ "/" ++ url;
     req_headers := headers self;
     req_timeout := INVOKE_REST_API_TIMEOUT_SECONDS;
     req_params := Py.merge (base_params self)
                            (match params with Some d => d | None => [] end);
     req_data := if Py.truthy data then Some (dumps data) else None |}.

(** Lines 205-208: the value a successful response is returned as. *)
Definition decode_body (as_json : bool) (body : string) : option value :=
  if as_json then loads body else Some (VBytes body).

(** Lines 202-214: the body of the [try]. *)
Definition try_request (req : Request) (as_json : bool) (log : Log)
  : attempt * Log :=
  let log' := (log ++ [Sent req])%list in
  match service log req with
  | Failed e => (Raises e, log')
  | Responded r =>
      if is_success (status_code r) then
        match decode_body as_json (content r) with
        | Some v => (Returns v, log')
        | None => (Raises DecodeError, log')
        end
      else if status_code r >=? 500 then
        match raise_for_status r with
        | Some e => (Raises e, log')
        | None => (FallsThrough, log')
        end
      else (Returns VNone, log')
  end.

(** Lines 200-219: [while retry < self.retries]; falling out of the loop
    is the implicit [return None]. *)
Fixpoint retry_loop (n : nat) (req : Request) (as_json : bool) (retry : Z)
    (log : Log) : res value * Log :=
  if retry <? retries self then
    match n with
    | O => (Diverge, log)
    | S n' =>
        match try_request req as_json log with
        | (Returns v, log1) => (Ok v, log1)
        | (Raises _, log1) =>
            let retry := retry + 1 in
            retry_loop n' req as_json retry
                       (log1 ++ [Slept (2 ^ (retry + 1))])%list
        | (FallsThrough, log1) => retry_loop n' req as_json retry log1
        end
    end
  else (Ok VNone, log).

Definition __run_request (request_type : Method) (url : string)
    (as_json : bool) (params : option dict) (data : value) : M value :=
  retry_loop fuel (request_args request_type url params data) as_json 0.

Definition _run_get_request (url : string) (params : option dict)
    (as_json : bool) : M value :=
  __run_request GET url as_json params VNone.

Definition _run_post_request (url : string) (params : option dict)
    (data : value) (as_json : bool) : M value :=
  __run_request POST url as_json params data.

Definition _run_patch_request (url : string) (params : option dict)
    (data : value) (as_json : bool) : M value :=
  __run_request PATCH url as_json params data.

(** A reply that makes the attempt fail and be retried: a transport
    exception, or a status from 500 to 599. *)
Definition is_transient (reply : Reply) : bool :=
  match reply with
  | Failed _ => true
  | Responded r => (500 <=? status_code r) && (status_code r <? 600)
  end.

(** What [k] failed attempts in a row append to the log when the retry
    counter stands at [retry]: each a request and the sleep after it. *)
Fixpoint backoff (req : Request) (retry : Z) (k : nat) : Log :=
  match k with
  | O => []
  | S k' => Sent req :: Slept (2 ^ (retry + 1 + 1)) :: backoff req (retry + 1) k'
  end.

Definition get_repository_by_name (name : string) : M value :=
  if negb (Py.truthy (VStr name)) then
    raise (ValueError ("Cannot get repository by name for - " ++ name))
  else _run_get_request ("git/repositories/" ++ name) None true.

Definition get_pull_request_id_by_branch (repo_id : value) (branch : string)
  : M value :=
  if negb (Py.truthy (VStr branch)) || String.eqb branch "master" then
    raise (ValueError ("invalid pr with source branch of '" ++ branch ++ "'"))
  else
    res <- _run_get_request
             ("git/repositories/" ++ Py.str repr repo_id ++ "/pullrequests")
             (Some [("searchCriteria.status", VStr "active");
                    ("searchCriteria.sourceRefName", VStr ("refs/heads/" ++ branch));
                    ("$top", VInt 1)])
             true ;;
    v <- lift (Py.getitem res "value") ;;
    if Py.truthy v then
      v' <- lift (Py.getitem res "value") ;;
      lift (Py.getindex v' 0)
    else ret VNone.

(** Lines 75-90: the query of the build search. *)
Definition builds_query (repo_id : value) (branch : string) (is_pr : bool)
    (n : Z) (build_number : string) : dict :=
  let reason_filter := if is_pr then "pullRequest" else "batchedCI,manual,individualCI" in
  let status_filter := if is_pr then "active" else "completed" in
  let branch_name := if is_pr then branch else "refs/heads/" ++ branch in
  let result_filter := if is_pr then "" else "succeeded,partiallySucceeded" in
  [("reasonFilter", VStr reason_filter);
   ("statusFilter", VStr status_filter);
   ("resultFilter", VStr result_filter);
   ("$top", VStr (Py.str_of_int n));
   ("branchName", VStr branch_name);
   ("repositoryId", repo_id);
   ("repositoryType", VStr "TfsGit");
   ("queryOrder", VStr "finishTimeDescending");
   ("buildNumber", VStr (build_number ++ "*"))].

Definition get_top_n_builds_for_repo_and_branch (repo_id : value)
    (branch : string) (is_pr : bool) (n : Z) (build_number : string)
  : M value :=
  if negb (Py.truthy repo_id) then
    raise (ValueError ("Invalid repo id - " ++ Py.str repr repo_id))
  else
    builds <- _run_get_request "build/builds"
                (Some (builds_query repo_id branch is_pr n build_number)) true ;;
    v <- lift (Py.get builds "value") ;;
    if negb (Py.truthy v) then
      raise (GenericException
               ("No builds for given parameters | branch: " ++ branch
                ++ " | repo: " ++ Py.str repr repo_id))
    else lift (Py.getitem builds "value").

Definition get_artifact_details (build_id : value) (artifact_name : string)
  : M value :=
  if negb (Py.truthy build_id) then
    raise (ValueError ("Invalid build id - " ++ Py.str repr build_id))
  else if negb (Py.truthy (VStr artifact_name)) then
    raise (ValueError ("Invalid artifact name - " ++ artifact_name))
  else _run_get_request ("build/builds/" ++ Py.str repr build_id ++ "/artifacts")
                        (Some [("artifactName", VStr artifact_name)]) true.

(** Lines 45-49: the loop over the builds and the final [return None, None]. *)
Fixpoint scan_builds (artifact_name : string) (builds : list value)
  : M (value * value) :=
  match builds with
  | [] => ret (VNone, VNone)
  | build :: rest =>
      build_id <- lift (Py.getitem build "id") ;;
      artifact <- get_artifact_details build_id artifact_name ;;
      if Py.truthy artifact then
        number <- lift (Py.getitem build "buildNumber") ;;
        parts <- lift (Py.split number "-") ;;
        version <- lift (Py.getindex parts 0) ;;
        resource <- lift (Py.getitem artifact "resource") ;;
        url <- lift (Py.getitem resource "downloadUrl") ;;
        ret (version, url)
      else scan_builds artifact_name rest
  end.

Definition get_artifact_for_repo_and_branch (artifact_name repository : string)
    (branch : string) (is_pr : bool) (build_version_prefix : string)
    (top_n_builds_to_check : Z) : M (value * value) :=
  repo_response_dict <- get_repository_by_name repository ;;
  repo_id <- lift (Py.getitem repo_response_dict "id") ;;
  '(branch, build_version_prefix) <-
      (if is_pr then
         pr <- get_pull_request_id_by_branch repo_id branch ;;
         pr_id <- lift (Py.getitem pr "pullRequestId") ;;
         ret ("refs/pull/" ++ Py.str repr pr_id ++ "/merge", "")
       else ret (branch, build_version_prefix)) ;;
  top_builds <- get_top_n_builds_for_repo_and_branch repo_id branch is_pr
                  top_n_builds_to_check
                  (if Py.truthy (VStr build_version_prefix)
                   then build_version_prefix else "") ;;
  builds <- lift (Py.iter top_builds) ;;
  scan_builds artifact_name builds.

(** *** Parts of the resolver, named to state properties of it *)

(** Lines 36-42: the repository identifier, the branch reference and the
    build-number prefix the build search is called with. *)
Definition search_target (repository branch : string) (is_pr : bool)
    (build_version_prefix : string) : M (value * string * string) :=
  repo_response_dict <- get_repository_by_name repository ;;
  repo_id <- lift (Py.getitem repo_response_dict "id") ;;
  if is_pr then
    pr <- get_pull_request_id_by_branch repo_id branch ;;
    pr_id <- lift (Py.getitem pr "pullRequestId") ;;
    ret (repo_id, "refs/pull/" ++ Py.str repr pr_id ++ "/merge", "")
  else ret (repo_id, branch, build_version_prefix).

(** Lines 36-45: the builds the loop iterates over. *)
Definition search_window (repository branch : string) (is_pr : bool)
    (build_version_prefix : string) (top_n_builds_to_check : Z)
  : M (list value) :=
  '(repo_id, branch, build_version_prefix) <-
      search_target repository branch is_pr build_version_prefix ;;
  top_builds <- get_top_n_builds_for_repo_and_branch repo_id branch is_pr
                  top_n_builds_to_check
                  (if Py.truthy (VStr build_version_prefix)
                   then build_version_prefix else "") ;;
  lift (Py.iter top_builds).

(** The request [get_artifact_details] sends for a build. *)
Definition artifact_request (build_id : value) (artifact_name : string)
  : Request :=
  request_args GET ("build/builds/" ++ Py.str repr build_id ++ "/artifacts")
               (Some [("artifactName", VStr artifact_name)]) VNone.

Definition artifact_request_of (artifact_name : string) (build : value)
  : Request :=
  match Py.getitem build "id" with
  | Ok build_id => artifact_request build_id artifact_name
  | _ => artifact_request VNone artifact_name
  end.

(** The service answers [req] at the first attempt, whatever happened
    before, and the executor returns [a] for that answer. *)
Definition answers (req : Request) (a : value) : Prop :=
  forall log, fst (try_request req true log) = Returns a.

(** The build has an identifier and the service says it did not publish
    the artifact (for instance with a 404). *)
Definition unpublished (artifact_name : string) (build : value) : Prop :=
  exists build_id,
    Py.getitem build "id" = Ok build_id /\ Py.truthy build_id = true /\
    exists a, answers (artifact_request build_id artifact_name) a /\
              Py.truthy a = false.

(** The build has an identifier and a build number, and the service
    returns the artifact [artifact] with download URL [url] for it. *)
Definition published (artifact_name : string) (build : value)
    (number : string) (url : value) : Prop :=
  exists build_id artifact resource,
    Py.getitem build "id" = Ok build_id /\ Py.truthy build_id = true /\
    Py.getitem build "buildNumber" = Ok (VStr number) /\
    answers (artifact_request build_id artifact_name) artifact /\
    Py.truthy artifact = true /\
    Py.getitem artifact "resource" = Ok resource /\
    Py.getitem resource "downloadUrl" = Ok url.

(** The artifact check of the build returns a value that is not truthy
    ("no result"), whatever happened before. *)
Definition lacks_artifact (artifact_name : string) (build : value) : Prop :=
  exists build_id,
    Py.getitem build "id" = Ok build_id /\
    forall log, exists a log',
      get_artifact_details build_id artifact_name log = (Ok a, log') /\
      Py.truthy a = false.

Definition get_branch_by_name (repo_id : value) (branch_name : string)
  : M value :=
  if negb (Py.truthy (VStr branch_name)) then
    raise (ValueError "Branch name cannot be empty")
  else _run_get_request ("git/repositories/" ++ Py.str repr repo_id ++ "/refs")
                        (Some [("filter", VStr ("heads/" ++ branch_name))]) true.

Definition read_file_from_repo (repo_id : value) (path_to_file : string)
    (branch_name : string) : M value :=
  if negb (Py.truthy (VStr path_to_file)) then
    raise (ValueError "File path cannot be empty")
  else _run_get_request ("git/repositories/" ++ Py.str repr repo_id ++ "/items")
                        (Some [("path", VStr path_to_file);
                               ("versionDescriptor.version", VStr branch_name)])
                        true.

Definition create_new_branch (repo_id : value) (data : value) : M value :=
  _run_post_request ("git/repositories/" ++ Py.str repr repo_id ++ "/pushes")
                    None data true.

Definition create_pr (repo_id : value)
    (source_branch_name new_branch_name title description : string)
    (is_draft : bool) : M value :=
  let data := VDict [("sourceRefName", VStr source_branch_name);
                     ("targetRefName", VStr new_branch_name);
                     ("title", VStr title);
                     ("description", VStr description);
                     ("isDraft", VStr (Py.str repr (VBool is_draft)))] in
  _run_post_request ("git/repositories/" ++ Py.str repr repo_id ++ "/pullrequests")
                    None data true.

Definition abandon_pr (repo_id pr_id : value) : M value :=
  let params := Py.set (base_params self) "api-version" (VStr "6.1-preview.1") in
  let data := VDict [("status", VStr "abandoned")] in
  _run_patch_request
    ("git/repositories/" ++ Py.str repr repo_id ++ "/pullrequests/"
     ++ Py.str repr pr_id)
    (Some params) data true.

Definition delete_branch (repo_id branch_name branch_id : value) : M value :=
  let data := VList [VDict [("name", branch_name);
                            ("oldObjectId", branch_id);
                            ("newObjectId",
                             VStr "0000000000000000000000000000000000000000")]] in
  _run_post_request ("git/repositories/" ++ Py.str repr repo_id ++ "/refs")
                    None data true.

Definition queue_build (data : value) : M value :=
  let params := Py.set (base_params self) "api-version" (VStr "6.0") in
  _run_post_request "build/builds" (Some params) data true.

Definition get_build_by_id (definition_id : value) : M value :=
  _run_get_request ("build/builds/" ++ Py.str repr definition_id) None true.

Definition get_definition_by_name (name : string) : M value :=
  if negb (Py.truthy (VStr name)) then
    raise (ValueError "Definition name cannot be empty")
  else _run_get_request "build/definitions" (Some [("name", VStr name)]) true.

(** Lines 183-188; the list is built front to back as the loop appends. *)
Fixpoint get_repos_contains_branch (relevant_repos : list string)
    (branch_name : string) : M (list string) :=
  match relevant_repos with
  | [] => ret []
  | supported_repo :: rest =>
      response <- get_branch_by_name (VStr supported_repo) branch_name ;;
      has <- match response with
             | VNone => ret false
             | _ => count <- lift (Py.getitem response "count") ;;
                    lift (Py.gt0 count)
             end ;;
      others <- get_repos_contains_branch rest branch_name ;;
      ret (if has then supported_repo :: others else others)
  end.

(** *** [get_repos_contains_branch]: the request sent for one repository *)

Definition branch_request (repo_id : value) (branch_name : string) : Request :=
  request_args GET ("git/repositories/" ++ Py.str repr repo_id ++ "/refs")
               (Some [("filter", VStr ("heads/" ++ branch_name))]) VNone.

(** *** [download_artifact] (lines 151-171)

    A static method: it has no instance, and the names [self.headers] and
    [definitions.AZURE_GET_SUCCESS_CODE] it reads are not defined in the
    file; both are parameters here, and so is [os.path.join].  [res.text] is
    taken to be the body as received.  The call writes at most one file; the
    model returns it (path and bytes) beside the outcome and the log, and
    takes the destination directory to be writable.  The loop has no [try]
    and no [time.sleep]. *)

Variable AZURE_GET_SUCCESS_CODE : Z.
Variable path_join : string -> string -> string.
Variable download_headers : list (string * string).

(** Lines 159-162. *)
Definition download_request (url : string) : Request :=
  {| req_method := GET;
     req_url := url;
     req_headers := download_headers;
     req_timeout := AZURE_API_DOWNLOAD_TIMEOUT_SECONDS;
     req_params := [];
     req_data := None |}.

(** [bool(res)] for a response of the requests library: its [ok], which is
    false exactly when [raise_for_status] would raise. *)
Definition response_ok (r : Response) : bool :=
  match raise_for_status r with
  | Some _ => false
  | None => true
  end.

(** Lines 155-164: [while retry < retries]; [response] is the variable
    [res] of the source. *)
Fixpoint download_loop (n : nat) (req : Request) (retries retry : Z)
    (response : option Response) (log : Log) : res (option Response) * Log :=
  if retry <? retries then
    match n with
    | O => (Diverge, log)
    | S n' =>
        let retry := retry + 1 in
        match service log req with
        | Failed e => (Raise e, (log ++ [Sent req])%list)
        | Responded r =>
            if status_code r =? AZURE_GET_SUCCESS_CODE
            then (Ok (Some r), (log ++ [Sent req])%list)
            else download_loop n' req retries retry (Some r) (log ++ [Sent req])%list
        end
    end
  else (Ok response, log).

(** The counter goes up by one in each iteration, so [retries] iterations
    are enough. *)
Definition download_artifact (url download_path : string) (retries : Z)
    (log : Log) : res string * Log * option (string * string) :=
  match download_loop (Z.to_nat retries) (download_request url) retries 0 None log with
  | (Ok None, log') =>
      (Raise (TimeoutError "Failed to download artifact"), log', None)
  | (Ok (Some r), log') =>
      if negb (response_ok r) then
        (Raise (TimeoutError "Failed to download artifact"), log', None)
      else if negb (status_code r =? AZURE_GET_SUCCESS_CODE) then
        (Raise (GenericException (content r)), log', None)
      else
        let zip_path := path_join download_path "artifact.zip" in
        (Ok zip_path, log', Some (zip_path, content r))
  | (Raise e, log') => (Raise e, log', None)
  | (Diverge, log') => (Diverge, log', None)
  end.

(* ================================================================== *)
(** ** Properties of the Python operations *)

Example str_of_pull_request_id : Py.str_of_int 42 = "42".
Proof. reflexivity. Qed.

Example split_build_number :
  Py.split_on "-" "1.2.3-abcdef-x" = ["1.2.3"; "abcdef"; "x"].
Proof. reflexivity. Qed.

Example merge_overrides_default :
  Py.merge [("api-version", VStr "5.1")]
           [("name", VStr "x"); ("api-version", VStr "6.0")]
  = [("api-version", VStr "6.0"); ("name", VStr "x")].
Proof. reflexivity. Qed.

Lemma split_on_not_nil (sep : ascii) (s : string) : Py.split_on sep s <> [].
Proof.
induction s as [|c r IH]; simpl.
- discriminate.
- destruct (Ascii.eqb c sep); [discriminate|].
  destruct (Py.split_on sep r); discriminate.
Qed.

(** [v.split(sep)[0]] on a string is its leading segment. *)
Lemma split_getindex_0 (sep : ascii) (s : string) :
Py.getindex (VList (map VStr (Py.split_on sep s))) 0
= Ok (VStr (Py.leading_segment sep s)).
Proof.
unfold Py.leading_segment.
pose proof (split_on_not_nil sep s) as H.
destruct (Py.split_on sep s) as [|h t]; [contradiction|reflexivity].
Qed.

Lemma truthy_str_empty (s : string) :
Py.truthy (VStr s) = false <-> s = "".
Proof.
simpl. destruct (String.eqb_spec s ""); simpl; split; congruence.
Qed.

(* ================================================================== *)
(** ** The monad *)

Lemma bind_ok {A B} (c : M A) (f : A -> M B) log a log' :
c log = (Ok a, log') -> bind c f log = f a log'.
Proof. unfold bind. intros ->. reflexivity. Qed.

Lemma bind_raise {A B} (c : M A) (f : A -> M B) log e log' :
c log = (Raise e, log') -> bind c f log = (Raise e, log').
Proof. unfold bind. intros ->. reflexivity. Qed.

Lemma bind_ok_inv {A B} (c : M A) (f : A -> M B) log b log2 :
bind c f log = (Ok b, log2) ->
exists a log1, c log = (Ok a, log1) /\ f a log1 = (Ok b, log2).
Proof.
unfold bind. destruct (c log) as [[a|e|] log1]; intros H.
- exists a, log1. split; [reflexivity|exact H].
- discriminate.
- discriminate.
Qed.

Lemma lift_ok_inv {A} (r : res A) log a log' :
lift r log = (Ok a, log') -> r = Ok a /\ log' = log.
Proof. unfold lift. intros H. inversion H. split; reflexivity. Qed.

(* ================================================================ *)
(** ** The request executor *)

Lemma try_request_log req as_json log :
  snd (try_request req as_json log) = (log ++ [Sent req])%list.
Proof.
  unfold try_request.
  destruct (service log req) as [r|e]; [|reflexivity].
  destruct (is_success (status_code r)).
  - destruct (decode_body as_json (content r)); reflexivity.
  - destruct (status_code r >=? 500); [|reflexivity].
    destruct (raise_for_status r); reflexivity.
Qed.

Lemma try_request_eq req as_json log a :
  fst (try_request req as_json log) = a ->
  try_request req as_json log = (a, (log ++ [Sent req])%list).
Proof.
  intros <-. rewrite <- (try_request_log req as_json log). apply surjective_pairing.
Qed.

Lemma server_error_not_success s : 500 <= s -> is_success s = false.
Proof.
  intros H. unfold is_success.
  destruct (Z.eqb_spec s 200); [lia|].
  destruct (Z.eqb_spec s 201); [lia|reflexivity].
Qed.

Lemma try_request_success req as_json log r v :
  service log req = Responded r ->
  is_success (status_code r) = true ->
  decode_body as_json (content r) = Some v ->
  try_request req as_json log = (Returns v, (log ++ [Sent req])%list).
Proof.
  intros Hs Hok Hd. unfold try_request. rewrite Hs, Hok, Hd. reflexivity.
Qed.

Lemma try_request_server_error req as_json log r :
  service log req = Responded r ->
  500 <= status_code r -> status_code r < 600 ->
  try_request req as_json log
  = (Raises (HTTPError (status_code r)), (log ++ [Sent req])%list).
Proof.
  intros Hs Hlo Hhi. unfold try_request, raise_for_status.
  rewrite Hs, (server_error_not_success _ Hlo).
  replace (status_code r >=? 500) with true by (symmetry; apply Z.geb_le; lia).
  replace (400 <=? status_code r) with true by (symmetry; apply Z.leb_le; lia).
  replace (status_code r <? 600) with true by (symmetry; apply Z.ltb_lt; lia).
  reflexivity.
Qed.

Lemma try_request_failed req as_json log e :
  service log req = Failed e ->
  try_request req as_json log = (Raises e, (log ++ [Sent req])%list).
Proof. intros Hs. unfold try_request. rewrite Hs. reflexivity. Qed.

Lemma try_request_definitive req as_json log r :
  service log req = Responded r ->
  is_success (status_code r) = false ->
  status_code r < 500 ->
  try_request req as_json log = (Returns VNone, (log ++ [Sent req])%list).
Proof.
  intros Hs Hok Hlt. unfold try_request. rewrite Hs, Hok.
  replace (status_code r >=? 500) with false; [reflexivity|].
  symmetry. rewrite Z.geb_leb. apply Z.leb_gt. lia.
Qed.

Lemma retry_loop_done n req as_json retry log :
  retries self <= retry ->
  retry_loop n req as_json retry log = (Ok VNone, log).
Proof.
  intros H. assert ((retry <? retries self) = false) as E by (apply Z.ltb_ge; lia).
  destruct n; simpl; rewrite E; reflexivity.
Qed.

Lemma retry_loop_returns n req as_json retry log v log1 :
  retry < retries self ->
  try_request req as_json log = (Returns v, log1) ->
  retry_loop (S n) req as_json retry log = (Ok v, log1).
Proof.
  intros H Ht. apply Z.ltb_lt in H. simpl. rewrite H, Ht. reflexivity.
Qed.

Lemma retry_loop_retries n req as_json retry log e log1 :
  retry < retries self ->
  try_request req as_json log = (Raises e, log1) ->
  retry_loop (S n) req as_json retry log
  = retry_loop n req as_json (retry + 1)
               (log1 ++ [Slept (2 ^ (retry + 1 + 1))])%list.
Proof.
  intros H Ht. apply Z.ltb_lt in H. simpl. rewrite H, Ht. reflexivity.
Qed.

(** Whatever the service does, the loop of [__run_request] ends in a
    returned value (or does not end): it raises nothing. *)
Lemma retry_loop_never_raises n req as_json :
  forall retry log, is_raise (fst (retry_loop n req as_json retry log)) = false.
Proof.
  induction n as [|n IH]; intros retry log; simpl.
  - destruct (retry <? retries self); reflexivity.
  - destruct (retry <? retries self); [|reflexivity].
    destruct (try_request req as_json log) as [[v|e|] log1].
    + reflexivity.
    + apply IH.
    + apply IH.
Qed.

Lemma run_request_never_raises request_type url as_json params data log :
  is_raise (fst (__run_request request_type url as_json params data log)) = false.
Proof. unfold __run_request. apply retry_loop_never_raises. Qed.

(** When every attempt at [req] fails (a transport exception, a 5xx
    status, a body that does not decode), the loop gives up after the
    remaining attempts, sleeps after each of them, and returns [None]. *)
Lemma retry_loop_exhausted req as_json :
  (forall log, exists e, fst (try_request req as_json log) = Raises e) ->
  forall k n retry log,
    retries self - retry = Z.of_nat k -> (k <= n)%nat ->
    retry_loop n req as_json retry log
    = (Ok VNone, (log ++ backoff req retry k)%list).
Proof.
  intros Hfail. induction k as [|k IH]; intros n retry log Hk Hn.
  - simpl. rewrite app_nil_r. apply retry_loop_done. lia.
  - destruct n as [|n]; [lia|].
    destruct (Hfail log) as [e He]. apply try_request_eq in He.
    rewrite (retry_loop_retries n req as_json retry log e (log ++ [Sent req])%list);
      [|lia|exact He].
    rewrite IH by lia. simpl. now rewrite <- !app_assoc.
Qed.

Lemma try_request_transient req as_json log :
  is_transient (service log req) = true ->
  exists e, fst (try_request req as_json log) = Raises e.
Proof.
  unfold is_transient. destruct (service log req) as [r|e] eqn:Hs; intros H.
  - apply andb_true_iff in H. destruct H as [Hlo Hhi].
    apply Z.leb_le in Hlo. apply Z.ltb_lt in Hhi.
    exists (HTTPError (status_code r)).
    now rewrite (try_request_server_error req as_json log r Hs Hlo Hhi).
  - exists e. now rewrite (try_request_failed req as_json log e Hs).
Qed.

(** When the service keeps failing, [__run_request] uses up its attempts,
    sleeping 4, 8, 16, ... seconds after each of them, also after the last,
    and returns [None]. *)
Lemma run_request_exhausted request_type url as_json params data log :
  (forall log', is_transient
                  (service log' (request_args request_type url params data)) = true) ->
  (Z.to_nat (retries self) <= fuel)%nat ->
  __run_request request_type url as_json params data log
  = (Ok VNone,
     (log ++ backoff (request_args request_type url params data) 0
               (Z.to_nat (retries self)))%list).
Proof.
  intros Hfail Hfuel. unfold __run_request.
  destruct (Z.le_gt_cases (retries self) 0) as [Hle|Hgt].
  - replace (Z.to_nat (retries self)) with O by lia.
    simpl. rewrite app_nil_r. now apply retry_loop_done.
  - apply retry_loop_exhausted; [|lia|exact Hfuel].
    intros log'. now apply try_request_transient.
Qed.

(** C7 (as amended): a response with a definitive status that is neither a
    success (200/201) nor 500 or more, such as 404, is never retried,
    whatever the HTTP method: GET, POST and PATCH alike return "no result"
    ([None]) after exactly one request and no sleep.  Nothing is raised and
    the body of the response is not passed on. *)
Theorem definitive_status_returns_none_without_retry
    request_type url as_json params data log r :
  0 < retries self -> (0 < fuel)%nat ->
  service log (request_args request_type url params data) = Responded r ->
  is_success (status_code r) = false ->
  status_code r < 500 ->
  __run_request request_type url as_json params data log
  = (Ok VNone, (log ++ [Sent (request_args request_type url params data)])%list).
Proof.
  intros Hr Hf Hs Hok Hlt. unfold __run_request.
  destruct fuel as [|n]; [lia|].
  apply retry_loop_returns; [lia|].
  now apply try_request_definitive with (r := r).
Qed.

(** C9: when the service answers the same request with 500, 500 and then
    200, the executor returns the decoded payload of the 200 response; in
    between it sleeps exactly twice, 4 seconds after the first failure and
    8 seconds after the second (2^(attempt+1) for attempts 1 and 2), and it
    sends the request three times. *)
Theorem responses_500_500_200_return_payload_after_sleeping_4_and_8
    request_type url as_json params data log req body1 body2 r3 payload :
  req = request_args request_type url params data ->
  3 <= retries self -> (3 <= fuel)%nat ->
  service log req = Responded (mkResponse 500 body1) ->
  service (log ++ [Sent req; Slept 4])%list req
    = Responded (mkResponse 500 body2) ->
  service (log ++ [Sent req; Slept 4; Sent req; Slept 8])%list req
    = Responded r3 ->
  status_code r3 = 200 ->
  decode_body as_json (content r3) = Some payload ->
  __run_request request_type url as_json params data log
  = (Ok payload,
     (log ++ [Sent req; Slept 4; Sent req; Slept 8; Sent req])%list)
  /\ 4 = 2 ^ (1 + 1) /\ 8 = 2 ^ (2 + 1).
Proof.
  intros -> Hr Hf H1 H2 H3 H200 Hd.
  split; [|split; reflexivity].
  unfold __run_request.
  set (req := request_args request_type url params data) in *.
  destruct fuel as [|[|[|n]]]; try lia.
  rewrite (retry_loop_retries _ req as_json 0 log (HTTPError 500)
             (log ++ [Sent req])%list); [|lia|].
  2:{ apply (try_request_server_error req as_json log _ H1); simpl; lia. }
  change (2 ^ (0 + 1 + 1)) with 4.
  replace ((log ++ [Sent req]) ++ [Slept 4])%list
    with (log ++ [Sent req; Slept 4])%list by now rewrite <- app_assoc.
  rewrite (retry_loop_retries _ req as_json (0 + 1) _ (HTTPError 500)
             ((log ++ [Sent req; Slept 4]) ++ [Sent req])%list); [|lia|].
  2:{ apply (try_request_server_error req as_json _ _ H2); simpl; lia. }
  change (2 ^ (0 + 1 + 1 + 1)) with 8.
  replace (((log ++ [Sent req; Slept 4]) ++ [Sent req]) ++ [Slept 8])%list
    with (log ++ [Sent req; Slept 4; Sent req; Slept 8])%list
    by now rewrite <- !app_assoc.
  rewrite (retry_loop_returns n req as_json (0 + 1 + 1) _ payload
             ((log ++ [Sent req; Slept 4; Sent req; Slept 8]) ++ [Sent req])%list);
    [|lia|].
  2:{ apply (try_request_success req as_json _ r3 payload H3); [|exact Hd].
      rewrite H200. reflexivity. }
  now rewrite <- !app_assoc.
Qed.

(* ================================================================ *)
(** ** The operations of the resolver *)

Lemma run_get_request_answered url params a log :
  0 < retries self -> (0 < fuel)%nat ->
  answers (request_args GET url params VNone) a ->
  _run_get_request url params true log
  = (Ok a, (log ++ [Sent (request_args GET url params VNone)])%list).
Proof.
  intros Hr Hf Ha. unfold _run_get_request, __run_request.
  destruct fuel as [|n]; [lia|].
  apply retry_loop_returns; [lia|].
  apply try_request_eq, Ha.
Qed.

Lemma get_artifact_details_answered build_id artifact_name a log :
  0 < retries self -> (0 < fuel)%nat ->
  Py.truthy build_id = true -> artifact_name <> "" ->
  answers (artifact_request build_id artifact_name) a ->
  get_artifact_details build_id artifact_name log
  = (Ok a, (log ++ [Sent (artifact_request build_id artifact_name)])%list).
Proof.
  intros Hr Hf Hid Hname Ha. unfold get_artifact_details.
  rewrite Hid. cbn [negb].
  destruct (Py.truthy (VStr artifact_name)) eqn:E.
  - simpl. now apply run_get_request_answered.
  - apply truthy_str_empty in E. contradiction.
Qed.

Lemma scan_builds_cons artifact_name build rest build_id artifact log log1 :
  Py.getitem build "id" = Ok build_id ->
  get_artifact_details build_id artifact_name log = (Ok artifact, log1) ->
  Py.truthy artifact = false ->
  scan_builds artifact_name (build :: rest) log
  = scan_builds artifact_name rest log1.
Proof.
  intros Hid Hd Ht. simpl. unfold bind at 1. unfold lift at 1. rewrite Hid.
  unfold bind at 1. rewrite Hd, Ht. reflexivity.
Qed.

(** A build without the artifact costs one request and the loop goes on. *)
Lemma scan_builds_skips artifact_name earlier rest :
  0 < retries self -> (0 < fuel)%nat -> artifact_name <> "" ->
  Forall (unpublished artifact_name) earlier ->
  forall log,
    scan_builds artifact_name (earlier ++ rest) log
    = scan_builds artifact_name rest
        (log ++ map Sent (map (artifact_request_of artifact_name) earlier))%list.
Proof.
  intros Hr Hf Hname Hall. induction Hall as [|b earlier Hb _ IH]; intros log.
  - simpl. now rewrite app_nil_r.
  - destruct Hb as (build_id & Hid & Htid & a & Ha & Hfalsy).
    rewrite <- app_comm_cons.
    rewrite (scan_builds_cons artifact_name b (earlier ++ rest) build_id a log
               (log ++ [Sent (artifact_request build_id artifact_name)])%list
               Hid); [| now apply get_artifact_details_answered | exact Hfalsy].
    rewrite IH. simpl map. unfold artifact_request_of at 2. rewrite Hid.
    now rewrite <- app_assoc.
Qed.

(** The first build with the artifact ends the loop. *)
Lemma scan_builds_hit artifact_name build later number url log :
  0 < retries self -> (0 < fuel)%nat -> artifact_name <> "" ->
  published artifact_name build number url ->
  scan_builds artifact_name (build :: later) log
  = (Ok (VStr (Py.leading_segment "-" number), url),
     (log ++ [Sent (artifact_request_of artifact_name build)])%list).
Proof.
  intros Hr Hf Hname (build_id & a & resource & Hid & Htid & Hnum & Ha & Ht & Hres & Hurl).
  simpl. unfold bind at 1. unfold lift at 1. rewrite Hid.
  unfold bind at 1.
  rewrite (get_artifact_details_answered build_id artifact_name a log Hr Hf Htid Hname Ha).
  rewrite Ht. unfold bind, lift, ret. rewrite Hnum. simpl Py.split.
  cbv iota beta. rewrite split_getindex_0, Hres, Hurl.
  unfold artifact_request_of. rewrite Hid. reflexivity.
Qed.

(** When no build of the window has the artifact the loop ends with
    [(None, None)]. *)
Lemma scan_builds_none artifact_name builds :
  Forall (lacks_artifact artifact_name) builds ->
  forall log, exists log',
    scan_builds artifact_name builds log = (Ok (VNone, VNone), log').
Proof.
  intros Hall. induction Hall as [|b builds Hb _ IH]; intros log.
  - exists log. reflexivity.
  - destruct Hb as (build_id & Hid & Hcheck).
    destruct (Hcheck log) as (a & log1 & Hd & Hfalsy).
    rewrite (scan_builds_cons artifact_name b builds build_id a log log1 Hid Hd Hfalsy).
    apply IH.
Qed.

(** What the loop can return. *)
Lemma scan_builds_ok_inv artifact_name builds :
  forall log r log',
    scan_builds artifact_name builds log = (Ok r, log') ->
    r = (VNone, VNone) \/
    exists build number artifact resource url,
      In build builds /\
      Py.getitem build "buildNumber" = Ok (VStr number) /\
      Py.truthy artifact = true /\
      Py.getitem artifact "resource" = Ok resource /\
      Py.getitem resource "downloadUrl" = Ok url /\
      r = (VStr (Py.leading_segment "-" number), url).
Proof.
  induction builds as [|b builds IH]; intros log r log' H.
  - left. simpl in H. unfold ret in H. now inversion H.
  - simpl in H.
    apply bind_ok_inv in H. destruct H as (build_id & l1 & _ & H).
    apply bind_ok_inv in H. destruct H as (a & l2 & _ & H).
    destruct (Py.truthy a) eqn:Ht.
    + right.
      apply bind_ok_inv in H. destruct H as (number & l3 & Hnum & H).
      apply bind_ok_inv in H. destruct H as (parts & l4 & Hparts & H).
      apply bind_ok_inv in H. destruct H as (version & l5 & Hver & H).
      apply bind_ok_inv in H. destruct H as (resource & l6 & Hres & H).
      apply bind_ok_inv in H. destruct H as (url & l7 & Hurl & H).
      apply lift_ok_inv in Hnum, Hparts, Hver, Hres, Hurl.
      destruct Hnum as [Hnum _], Hparts as [Hparts _], Hver as [Hver _],
               Hres as [Hres _], Hurl as [Hurl _].
      unfold ret in H. inversion H; subst r log'.
      destruct number as [| | |s| | |]; try discriminate.
      simpl in Hparts. inversion Hparts; subst parts.
      rewrite split_getindex_0 in Hver. inversion Hver; subst version.
      exists b, s, a, resource, url.
      repeat split; try assumption. now left.
    + destruct (IH _ _ _ H) as [E | (b' & number & a' & resource & url & Hin & Hrest)].
      * now left.
      * right. exists b', number, a', resource, url. split; [now right|exact Hrest].
Qed.

Lemma resolver_from_target
    artifact_name repository branch is_pr prefix n log0 repo_id branch' prefix' log1 :
  search_target repository branch is_pr prefix log0
  = (Ok (repo_id, branch', prefix'), log1) ->
  get_artifact_for_repo_and_branch artifact_name repository branch is_pr prefix n log0
  = (top_builds <- get_top_n_builds_for_repo_and_branch repo_id branch' is_pr n
                     (if Py.truthy (VStr prefix') then prefix' else "") ;;
     builds <- lift (Py.iter top_builds) ;;
     scan_builds artifact_name builds) log1.
Proof.
  unfold search_target, get_artifact_for_repo_and_branch. intros H.
  apply bind_ok_inv in H. destruct H as (repo & l1 & Hrepo & H).
  apply bind_ok_inv in H. destruct H as (id & l2 & Hid & H).
  rewrite (bind_ok _ _ _ _ _ Hrepo), (bind_ok _ _ _ _ _ Hid).
  destruct is_pr.
  - apply bind_ok_inv in H. destruct H as (pr & l3 & Hpr & H).
    apply bind_ok_inv in H. destruct H as (pr_id & l4 & Hpid & H).
    unfold ret in H. inversion H; subst.
    unfold bind at 1. unfold bind at 1.
    rewrite Hpr. unfold bind at 1. rewrite Hpid. reflexivity.
  - unfold ret in H. inversion H; subst. reflexivity.
Qed.

Lemma resolver_from_window
    artifact_name repository branch is_pr prefix n log0 builds log1 :
  search_window repository branch is_pr prefix n log0 = (Ok builds, log1) ->
  get_artifact_for_repo_and_branch artifact_name repository branch is_pr prefix n log0
  = scan_builds artifact_name builds log1.
Proof.
  unfold search_window. intros H.
  apply bind_ok_inv in H. destruct H as ([[repo_id branch'] prefix'] & l1 & Htarget & H).
  apply bind_ok_inv in H. destruct H as (top & l2 & Htop & H).
  apply lift_ok_inv in H. destruct H as [Hiter ->].
  rewrite (resolver_from_target artifact_name _ _ _ _ n _ _ _ _ _ Htarget).
  rewrite (bind_ok _ _ _ _ _ Htop).
  unfold bind, lift. rewrite Hiter. reflexivity.
Qed.

(* ================================================================ *)
(** ** The resolver *)

Lemma top_builds_zero repo_id branch is_pr n build_number log response log1 :
  Py.truthy repo_id = true ->
  _run_get_request "build/builds"
    (Some (builds_query repo_id branch is_pr n build_number)) true log
  = (Ok response, log1) ->
  Py.get response "value" = Ok (VList []) ->
  get_top_n_builds_for_repo_and_branch repo_id branch is_pr n build_number log
  = (Raise (GenericException
              ("No builds for given parameters | branch: " ++ branch
               ++ " | repo: " ++ Py.str repr repo_id)), log1).
Proof.
  intros Hid Hget Hval. unfold get_top_n_builds_for_repo_and_branch.
  rewrite Hid. cbn [negb].
  rewrite (bind_ok _ _ _ _ _ Hget).
  unfold bind, lift. rewrite Hval. reflexivity.
Qed.

(** In PR mode the branch and the prefix the caller gave are replaced. *)
Lemma pr_mode_search_target
    repository branch prefix log0 repo log1 repo_id pr log2 pr_id :
  get_repository_by_name repository log0 = (Ok repo, log1) ->
  Py.getitem repo "id" = Ok repo_id ->
  get_pull_request_id_by_branch repo_id branch log1 = (Ok pr, log2) ->
  Py.getitem pr "pullRequestId" = Ok pr_id ->
  search_target repository branch true prefix log0
  = (Ok (repo_id, "refs/pull/" ++ Py.str repr pr_id ++ "/merge", ""), log2).
Proof.
  intros Hrepo Hid Hpr Hpid. unfold search_target.
  rewrite (bind_ok _ _ _ _ _ Hrepo).
  unfold bind at 1. unfold lift at 1. rewrite Hid.
  rewrite (bind_ok _ _ _ _ _ Hpr).
  unfold bind, lift, ret. rewrite Hpid. reflexivity.
Qed.

(** When the pull-request search finds nothing, the lookup returns [None]. *)
Lemma pull_request_lookup_none repo_id branch log response log1 :
  branch <> "" -> branch <> "master" ->
  _run_get_request ("git/repositories/" ++ Py.str repr repo_id ++ "/pullrequests")
    (Some [("searchCriteria.status", VStr "active");
           ("searchCriteria.sourceRefName", VStr ("refs/heads/" ++ branch));
           ("$top", VInt 1)]) true log
  = (Ok response, log1) ->
  Py.getitem response "value" = Ok (VList []) ->
  get_pull_request_id_by_branch repo_id branch log = (Ok VNone, log1).
Proof.
  intros Hne Hnm Hget Hval. unfold get_pull_request_id_by_branch.
  destruct (Py.truthy (VStr branch)) eqn:E1.
  2:{ apply truthy_str_empty in E1. contradiction. }
  destruct (String.eqb_spec branch "master") as [E2|_]; [contradiction|].
  cbn [negb orb].
  rewrite (bind_ok _ _ _ _ _ Hget).
  unfold bind, lift. rewrite Hval. reflexivity.
Qed.

(** ... and the resolver then subscripts [None]. *)
Lemma resolver_without_pull_request_raises_type_error
    artifact_name repository branch prefix n log0 repo log1 repo_id log2 :
  get_repository_by_name repository log0 = (Ok repo, log1) ->
  Py.getitem repo "id" = Ok repo_id ->
  get_pull_request_id_by_branch repo_id branch log1 = (Ok VNone, log2) ->
  get_artifact_for_repo_and_branch artifact_name repository branch true prefix n log0
  = (Raise TypeError, log2).
Proof.
  intros Hrepo Hid Hpr. unfold get_artifact_for_repo_and_branch.
  rewrite (bind_ok _ _ _ _ _ Hrepo).
  unfold bind at 1. unfold lift at 1. rewrite Hid.
  unfold bind at 1. unfold bind at 1. rewrite Hpr. reflexivity.
Qed.

(** When the repository lookup returns [None] the resolver subscripts it. *)
Lemma resolver_without_repository_raises_type_error
    artifact_name repository branch is_pr prefix n log0 log1 :
  get_repository_by_name repository log0 = (Ok VNone, log1) ->
  get_artifact_for_repo_and_branch artifact_name repository branch is_pr prefix n log0
  = (Raise TypeError, log1).
Proof.
  intros Hrepo. unfold get_artifact_for_repo_and_branch.
  rewrite (bind_ok _ _ _ _ _ Hrepo). reflexivity.
Qed.

(** C10 (as amended): every operation that takes the argument itself
    rejects the empty string with a [ValueError] and leaves the log as it
    was, so no request is sent: the repository name, the branch name of the
    pull-request lookup, the build id and the artifact name of the artifact
    check, the file path, the definition name and the branch name of the
    branch lookup.  The resolver rejects an empty repository name in the
    same way, before any request. *)
Theorem empty_arguments_are_rejected_before_any_request
    repo_id build_id name branch_name artifact_name branch is_pr prefix n log :
  get_repository_by_name "" log
  = (Raise (ValueError "Cannot get repository by name for - "), log)
  /\ get_pull_request_id_by_branch repo_id "" log
     = (Raise (ValueError "invalid pr with source branch of ''"), log)
  /\ get_artifact_details (VStr "") name log
     = (Raise (ValueError "Invalid build id - "), log)
  /\ (exists msg,
        get_artifact_details build_id "" log = (Raise (ValueError msg), log))
  /\ read_file_from_repo repo_id "" branch_name log
     = (Raise (ValueError "File path cannot be empty"), log)
  /\ get_definition_by_name "" log
     = (Raise (ValueError "Definition name cannot be empty"), log)
  /\ get_branch_by_name repo_id "" log
     = (Raise (ValueError "Branch name cannot be empty"), log)
  /\ get_artifact_for_repo_and_branch artifact_name "" branch is_pr prefix n log
     = (Raise (ValueError "Cannot get repository by name for - "), log).
Proof.
  repeat split; try reflexivity.
  unfold get_artifact_details.
  destruct (Py.truthy build_id); cbn [negb]; eexists; reflexivity.
Qed.

(* ================================================================ *)
(** ** More on the request executor *)

Lemma calls_app (l1 l2 : Log) : calls (l1 ++ l2)%list = (calls l1 ++ calls l2)%list.
Proof. unfold calls. apply flat_map_app. Qed.

Lemma sleeps_app (l1 l2 : Log) : sleeps (l1 ++ l2)%list = (sleeps l1 ++ sleeps l2)%list.
Proof. unfold sleeps. apply flat_map_app. Qed.

Lemma calls_backoff req retry k : calls (backoff req retry k) = repeat req k.
Proof.
  revert retry. induction k as [|k IH]; intros retry; simpl; [reflexivity|].
  now rewrite IH.
Qed.

Lemma sleeps_backoff req retry k :
  sleeps (backoff req retry k)
  = map (fun i => 2 ^ (retry + Z.of_nat i + 1)) (seq 1 k).
Proof.
  revert retry. induction k as [|k IH]; intros retry; [reflexivity|].
  change (sleeps (backoff req retry (S k)))
    with (2 ^ (retry + 1 + 1) :: sleeps (backoff req (retry + 1) k)).
  rewrite IH. cbn [seq map]. rewrite <- (seq_shift k 1), map_map. f_equal.
  apply map_ext. intros i. f_equal. lia.
Qed.

Lemma sum_backoff retry k :
  0 <= retry ->
  fold_right Z.add 0 (map (fun i => 2 ^ (retry + Z.of_nat i + 1)) (seq 1 k))
  = 2 ^ (retry + Z.of_nat k + 2) - 2 ^ (retry + 2).
Proof.
  revert retry. induction k as [|k IH]; intros retry Hr.
  - simpl. replace (retry + 0 + 2) with (retry + 2) by lia. lia.
  - cbn [seq map fold_right]. rewrite <- (seq_shift k 1), map_map.
    rewrite (map_ext _ (fun i => 2 ^ (retry + 1 + Z.of_nat i + 1))).
    2:{ intros i. f_equal. lia. }
    rewrite IH by lia.
    replace (retry + Z.of_nat 1 + 1) with (retry + 2) by lia.
    replace (retry + 1 + Z.of_nat k + 2) with (retry + Z.of_nat (S k) + 2) by lia.
    replace (retry + 1 + 2) with (Z.succ (retry + 2)) by lia.
    rewrite (Z.pow_succ_r 2 (retry + 2)) by lia. lia.
Qed.

Lemma try_request_falls_through req as_json log r :
  service log req = Responded r ->
  600 <= status_code r ->
  try_request req as_json log = (FallsThrough, (log ++ [Sent req])%list).
Proof.
  intros Hs H. unfold try_request, raise_for_status.
  rewrite Hs, (server_error_not_success (status_code r)) by lia.
  replace (status_code r >=? 500) with true by (symmetry; apply Z.geb_le; lia).
  replace (status_code r <? 600) with false by (symmetry; apply Z.ltb_ge; lia).
  now rewrite andb_false_r.
Qed.

Lemma try_request_no_fall_through req as_json log :
  (forall r, service log req = Responded r -> status_code r < 600) ->
  fst (try_request req as_json log) <> FallsThrough.
Proof.
  intros H. unfold try_request, raise_for_status.
  destruct (service log req) as [r|e]; [|discriminate].
  specialize (H r eq_refl).
  destruct (is_success (status_code r)).
  - destruct (decode_body as_json (content r)); discriminate.
  - destruct (Z.geb_spec (status_code r) 500) as [Hge|Hlt]; [|discriminate].
    replace (400 <=? status_code r) with true by (symmetry; apply Z.leb_le; lia).
    replace (status_code r <? 600) with true by (symmetry; apply Z.ltb_lt; lia).
    discriminate.
Qed.

Lemma retry_loop_shape req as_json :
  (forall log r, service log req = Responded r -> status_code r < 600) ->
  forall k n retry log,
    k = Z.to_nat (retries self - retry) -> (k <= n)%nat ->
    exists m v,
      ((m < k)%nat /\
       retry_loop n req as_json retry log
       = (Ok v, (log ++ backoff req retry m ++ [Sent req])%list))
      \/ (m = k /\ v = VNone /\
          retry_loop n req as_json retry log
          = (Ok VNone, (log ++ backoff req retry k)%list)).
Proof.
  intros Hno. induction k as [|k IH]; intros n retry log Hk Hn.
  - exists O, VNone. right. split; [reflexivity|]. split; [reflexivity|].
    simpl. rewrite app_nil_r. apply retry_loop_done. lia.
  - destruct n as [|n]; [lia|].
    assert (retry < retries self) as Hlt by lia.
    pose proof (try_request_no_fall_through req as_json log (Hno log)) as Hnf.
    pose proof (try_request_log req as_json log) as Hlog.
    destruct (try_request req as_json log) as [[v|e|] log1] eqn:Ht;
      simpl in Hlog, Hnf; subst log1; [| |contradiction].
    + exists O, v. left. split; [lia|].
      simpl backoff. now apply retry_loop_returns.
    + rewrite (retry_loop_retries n req as_json retry log e _ Hlt Ht).
      destruct (IH n (retry + 1)
                  ((log ++ [Sent req]) ++ [Slept (2 ^ (retry + 1 + 1))])%list)
        as (m & v & [[Hm Hrun] | (Hm & Hv & Hrun)]); [lia|lia| |].
      * exists (S m), v. left. split; [lia|].
        rewrite Hrun. simpl. now rewrite <- !app_assoc.
      * exists (S m), VNone. right. split; [lia|]. split; [reflexivity|].
        rewrite Hrun. simpl. now rewrite <- !app_assoc.
Qed.

(** X1: as long as the service never answers with a status of 600 or more,
    [__run_request] ends within [retries] requests, with a value and never
    an exception, and its trace has one shape: some failed attempts, each a
    request followed by its sleep, and then either one last request whose
    answer is returned, or nothing more, when all attempts failed and [None]
    is returned. *)
Theorem run_request_ends_within_retries
    request_type url as_json params data log req k :
  req = request_args request_type url params data ->
  (forall log' r, service log' req = Responded r -> status_code r < 600) ->
  k = Z.to_nat (retries self) -> (k <= fuel)%nat ->
  exists m v,
    ((m < k)%nat /\
     __run_request request_type url as_json params data log
     = (Ok v, (log ++ backoff req 0 m ++ [Sent req])%list))
    \/ (m = k /\ v = VNone /\
        __run_request request_type url as_json params data log
        = (Ok VNone, (log ++ backoff req 0 k)%list)).
Proof.
  intros -> Hno -> Hfuel. unfold __run_request.
  apply retry_loop_shape; [exact Hno| |exact Hfuel].
  f_equal. lia.
Qed.

(** X2: when every attempt fails (a transport exception or a status from
    500 to 599), [__run_request] sends the request exactly [retries] times,
    sleeps after each attempt, the last included, 2^(i+1) seconds after the
    i-th, which adds up to 2^(retries+2) - 4 seconds, and returns [None]. *)
Theorem exhausted_run_request_sleeps_after_every_attempt
    request_type url as_json params data log req k :
  req = request_args request_type url params data ->
  (forall log', is_transient (service log' req) = true) ->
  k = Z.to_nat (retries self) -> (k <= fuel)%nat ->
  exists trace,
    __run_request request_type url as_json params data log
    = (Ok VNone, (log ++ trace)%list)
    /\ calls trace = repeat req k
    /\ sleeps trace = map (fun i => 2 ^ (Z.of_nat i + 1)) (seq 1 k)
    /\ fold_right Z.add 0 (sleeps trace) = 2 ^ (Z.of_nat k + 2) - 4.
Proof.
  intros -> Hfail -> Hfuel.
  set (req := request_args request_type url params data) in *.
  exists (backoff req 0 (Z.to_nat (retries self))).
  split; [now apply run_request_exhausted|].
  split; [apply calls_backoff|].
  rewrite sleeps_backoff. split; [reflexivity|].
  rewrite sum_backoff by lia. reflexivity.
Qed.

Lemma retry_loop_spins req as_json :
  (forall log, exists r, service log req = Responded r /\ 600 <= status_code r) ->
  forall n retry log,
    retry < retries self ->
    retry_loop n req as_json retry log
    = (Diverge, (log ++ repeat (Sent req) n)%list).
Proof.
  intros H600. induction n as [|n IH]; intros retry log Hlt.
  - simpl. apply Z.ltb_lt in Hlt. rewrite Hlt. now rewrite app_nil_r.
  - destruct (H600 log) as (r & Hs & Hr).
    pose proof (try_request_falls_through req as_json log r Hs Hr) as Ht.
    simpl retry_loop. apply Z.ltb_lt in Hlt. rewrite Hlt, Ht.
    rewrite IH by (now apply Z.ltb_lt). simpl. now rewrite <- app_assoc.
Qed.

(** X3: an answer with a status of 600 or more is neither returned nor
    counted as a failed attempt: while the service keeps answering so,
    [__run_request] sends the request again at once, without sleeping and
    without using up its retries, so that no bound on the iterations of its
    loop is enough for it to end. *)
Theorem status_600_is_resent_without_sleep_or_end
    request_type url as_json params data log req :
  req = request_args request_type url params data ->
  0 < retries self ->
  (forall log', exists r, service log' req = Responded r /\ 600 <= status_code r) ->
  __run_request request_type url as_json params data log
  = (Diverge, (log ++ repeat (Sent req) fuel)%list)
  /\ sleeps (repeat (Sent req) fuel) = [].
Proof.
  intros -> Hr H600. split.
  - unfold __run_request. now apply retry_loop_spins.
  - induction fuel as [|n IH]; simpl; [reflexivity|exact IH].
Qed.

(** X4: in JSON mode a success answer whose body does not decode counts as
    a failed attempt: the executor sleeps 4 seconds and sends the request
    again, and returns the payload of the next answer when that decodes. *)
Theorem undecodable_success_body_is_retried
    request_type url params data log req r1 r2 payload :
  req = request_args request_type url params data ->
  2 <= retries self -> (2 <= fuel)%nat ->
  service log req = Responded r1 ->
  is_success (status_code r1) = true -> loads (content r1) = None ->
  service (log ++ [Sent req; Slept 4])%list req = Responded r2 ->
  is_success (status_code r2) = true -> loads (content r2) = Some payload ->
  __run_request request_type url true params data log
  = (Ok payload, (log ++ [Sent req; Slept 4; Sent req])%list).
Proof.
  intros -> Hr Hf H1 Hok1 Hd1 H2 Hok2 Hd2. unfold __run_request.
  set (req := request_args request_type url params data) in *.
  destruct fuel as [|[|n]]; try lia.
  assert (try_request req true log = (Raises DecodeError, (log ++ [Sent req])%list)) as Ht1.
  { unfold try_request, decode_body. now rewrite H1, Hok1, Hd1. }
  rewrite (retry_loop_retries _ req true 0 log DecodeError _ ltac:(lia) Ht1).
  change (2 ^ (0 + 1 + 1)) with 4.
  replace ((log ++ [Sent req]) ++ [Slept 4])%list
    with (log ++ [Sent req; Slept 4])%list by now rewrite <- app_assoc.
  rewrite (retry_loop_returns n req true (0 + 1) _ payload
             ((log ++ [Sent req; Slept 4]) ++ [Sent req])%list); [|lia|].
  - now rewrite <- app_assoc.
  - now apply (try_request_success req true _ r2 payload H2 Hok2).
Qed.

(* ================================================================ *)
(** ** The query parameters of a request *)

Lemma lookup_set d k v k' :
  Py.lookup (Py.set d k v) k'
  = if String.eqb k' k then Some v else Py.lookup d k'.
Proof.
  induction d as [|[k0 v0] d IH]; simpl.
  - reflexivity.
  - destruct (String.eqb_spec k k0) as [->|Hne]; simpl.
    + destruct (String.eqb k' k0); reflexivity.
    + rewrite IH. destruct (String.eqb_spec k' k0) as [->|Hne'].
      * destruct (String.eqb_spec k0 k); [congruence|reflexivity].
      * reflexivity.
Qed.

Lemma lookup_app d1 d2 k :
  Py.lookup (d1 ++ d2)%list k
  = match Py.lookup d1 k with Some v => Some v | None => Py.lookup d2 k end.
Proof.
  induction d1 as [|[k0 v0] d1 IH]; simpl; [reflexivity|].
  destruct (String.eqb k k0); [reflexivity|exact IH].
Qed.

Lemma lookup_in_keys d k v : Py.lookup d k = Some v -> In k (map fst d).
Proof.
  induction d as [|[k0 v0] d IH]; simpl; [discriminate|].
  destruct (String.eqb_spec k k0) as [->|Hne]; intros H.
  - now left.
  - right. now apply IH.
Qed.

Lemma lookup_rev d k :
  NoDup (map fst d) -> Py.lookup (rev d) k = Py.lookup d k.
Proof.
  induction d as [|[k0 v0] d IH]; intros Hnd; [reflexivity|].
  simpl in Hnd. inversion Hnd as [|? ? Hnotin Hnd']; subst.
  simpl rev. rewrite lookup_app, (IH Hnd'). simpl.
  destruct (Py.lookup d k) as [v|] eqn:E.
  - apply lookup_in_keys in E.
    destruct (String.eqb_spec k k0) as [->|_]; [contradiction|reflexivity].
  - reflexivity.
Qed.

(** [{**a, **b}]: the last binding of the key in [b], else that of [a]. *)
Lemma lookup_merge a b k :
  Py.lookup (Py.merge a b) k
  = match Py.lookup (rev b) k with
    | Some v => Some v
    | None => Py.lookup a k
    end.
Proof.
  unfold Py.merge. revert a. induction b as [|[k0 v0] b IH]; intros a.
  - reflexivity.
  - simpl fold_left. rewrite IH. simpl rev. rewrite lookup_app, lookup_set.
    destruct (Py.lookup (rev b) k); [reflexivity|]. simpl.
    destruct (String.eqb k k0); reflexivity.
Qed.

Lemma set_keys_in d k v k' :
  In k' (map fst (Py.set d k v)) <-> k' = k \/ In k' (map fst d).
Proof.
  clear. induction d as [|[k0 v0] d IH]; simpl.
  - intuition congruence.
  - destruct (String.eqb_spec k k0) as [->|Hne]; simpl.
    + intuition congruence.
    + rewrite IH. intuition congruence.
Qed.

Lemma set_keys_nodup d k v :
  NoDup (map fst d) -> NoDup (map fst (Py.set d k v)).
Proof.
  induction d as [|[k0 v0] d IH]; intros Hnd; simpl.
  - constructor; [intros []|constructor].
  - simpl in Hnd. inversion Hnd as [|? ? Hnotin Hnd']; subst.
    destruct (String.eqb_spec k k0) as [->|Hne]; simpl.
    + now constructor.
    + constructor; [|now apply IH].
      rewrite set_keys_in. intros [E|Hin]; [congruence|contradiction].
Qed.

(** X5: the query of every request is the default parameters of the client
    overridden by the parameters of the call: a key the call gives carries
    the value of the call, any other key keeps the default of the client,
    and a call without parameters sends the defaults. *)
Theorem request_params_are_defaults_overridden_by_the_call
    request_type url params data key :
  match params with Some given => NoDup (map fst given) | None => True end ->
  Py.lookup (req_params (request_args request_type url params data)) key
  = match params with
    | Some given =>
        match Py.lookup given key with
        | Some v => Some v
        | None => Py.lookup (base_params self) key
        end
    | None => Py.lookup (base_params self) key
    end.
Proof.
  intros Hnd. unfold request_args. simpl req_params. rewrite lookup_merge.
  destruct params as [given|]; [|reflexivity].
  now rewrite (lookup_rev given key Hnd).
Qed.

Lemma retry_loop_appends n req as_json :
  forall retry log, exists t,
    snd (retry_loop n req as_json retry log) = (log ++ t)%list.
Proof.
  induction n as [|n IH]; intros retry log; simpl.
  - exists []. rewrite app_nil_r. destruct (retry <? retries self); reflexivity.
  - destruct (retry <? retries self).
    2:{ exists []. now rewrite app_nil_r. }
    pose proof (try_request_log req as_json log) as Hl.
    destruct (try_request req as_json log) as [[v|e|] log1]; simpl in Hl; subst log1.
    + exists [Sent req]. reflexivity.
    + destruct (IH (retry + 1) ((log ++ [Sent req]) ++ [Slept (2 ^ (retry + 1 + 1))])%list)
        as [t Ht].
      exists ([Sent req] ++ [Slept (2 ^ (retry + 1 + 1))] ++ t)%list.
      rewrite Ht. now rewrite !app_assoc.
    + destruct (IH retry (log ++ [Sent req])%list) as [t Ht].
      exists ([Sent req] ++ t)%list. rewrite Ht. now rewrite !app_assoc.
Qed.

(** A client with at least one attempt sends its request first of all. *)
Lemma run_request_first_call request_type url as_json params data log :
  0 < retries self -> (0 < fuel)%nat ->
  nth_error (calls (snd (__run_request request_type url as_json params data log)))
            (length (calls log))
  = Some (request_args request_type url params data).
Proof.
  intros Hr Hf. unfold __run_request.
  set (req := request_args request_type url params data).
  assert (exists t, snd (retry_loop fuel req as_json 0 log)
                    = (log ++ Sent req :: t)%list) as [t Ht].
  { destruct fuel as [|n]; [lia|]. cbn [retry_loop].
    replace (0 <? retries self) with true by (symmetry; apply Z.ltb_lt; lia).
    pose proof (try_request_log req as_json log) as Hl.
    destruct (try_request req as_json log) as [[v|e|] log1]; simpl in Hl; subst log1.
    - exists []. reflexivity.
    - destruct (retry_loop_appends n req as_json (0 + 1)
                  ((log ++ [Sent req]) ++ [Slept (2 ^ (0 + 1 + 1))])%list) as [t Ht].
      exists (Slept (2 ^ (0 + 1 + 1)) :: t). rewrite Ht. now rewrite <- !app_assoc.
    - destruct (retry_loop_appends n req as_json 0 (log ++ [Sent req])%list) as [t Ht].
      exists t. rewrite Ht. now rewrite <- app_assoc. }
  rewrite Ht, calls_app. simpl calls.
  rewrite nth_error_app2 by lia. now rewrite Nat.sub_diag.
Qed.

Lemma lookup_overridden_api_version version key :
  NoDup (map fst (base_params self)) ->
  Py.lookup (Py.merge (base_params self)
                      (Py.set (base_params self) "api-version" version)) key
  = if String.eqb key "api-version" then Some version
    else Py.lookup (base_params self) key.
Proof.
  intros Hnd.
  rewrite lookup_merge, (lookup_rev _ key (set_keys_nodup _ _ _ Hnd)).
  rewrite lookup_set. destruct (String.eqb key "api-version"); [reflexivity|].
  destruct (Py.lookup (base_params self) key); reflexivity.
Qed.

(** X6: [abandon_pr] sends a PATCH and [queue_build] a POST whose query
    carries their own API version (6.1-preview.1 and 6.0) in place of the
    default of the client, and every other default parameter unchanged. *)
Theorem abandon_pr_and_queue_build_send_their_own_api_version
    repo_id pr_id data log :
  NoDup (map fst (base_params self)) ->
  0 < retries self -> (0 < fuel)%nat ->
  (exists req,
      nth_error (calls (snd (abandon_pr repo_id pr_id log))) (length (calls log))
      = Some req
      /\ req_method req = PATCH
      /\ forall key,
           Py.lookup (req_params req) key
           = if String.eqb key "api-version" then Some (VStr "6.1-preview.1")
             else Py.lookup (base_params self) key)
  /\ (exists req,
         nth_error (calls (snd (queue_build data log))) (length (calls log))
         = Some req
         /\ req_method req = POST
         /\ forall key,
              Py.lookup (req_params req) key
              = if String.eqb key "api-version" then Some (VStr "6.0")
                else Py.lookup (base_params self) key).
Proof.
  intros Hnd Hr Hf. split.
  - eexists. split; [|split].
    + unfold abandon_pr, _run_patch_request. now apply run_request_first_call.
    + reflexivity.
    + intros key. now apply lookup_overridden_api_version.
  - eexists. split; [|split].
    + unfold queue_build, _run_post_request. now apply run_request_first_call.
    + reflexivity.
    + intros key. now apply lookup_overridden_api_version.
Qed.

(** X7: the write operations ([create_new_branch], [create_pr],
    [abandon_pr], [delete_branch], [queue_build]) and [get_build_by_id]
    raise nothing, whatever their arguments and whatever the service does:
    a refused or failed write shows only as the value returned. *)
Theorem write_operations_never_raise
    repo_id data source_branch_name new_branch_name title description is_draft
    pr_id branch_name branch_id definition_id log :
  is_raise (fst (create_new_branch repo_id data log)) = false
  /\ is_raise (fst (create_pr repo_id source_branch_name new_branch_name title
                      description is_draft log)) = false
  /\ is_raise (fst (abandon_pr repo_id pr_id log)) = false
  /\ is_raise (fst (delete_branch repo_id branch_name branch_id log)) = false
  /\ is_raise (fst (queue_build data log)) = false
  /\ is_raise (fst (get_build_by_id definition_id log)) = false.
Proof.
  repeat split; apply run_request_never_raises.
Qed.

(** X8: each read operation with a required argument either rejects it,
    when it is empty, with its [ValueError] and an unchanged log, or raises
    nothing at all: it never raises once it has sent a request. *)
Theorem read_operations_raise_only_before_sending
    name repo_id branch_name path_to_file build_id artifact_name log :
  (get_repository_by_name name log
   = (Raise (ValueError ("Cannot get repository by name for - " ++ name)), log)
   \/ is_raise (fst (get_repository_by_name name log)) = false)
  /\ (get_branch_by_name repo_id branch_name log
      = (Raise (ValueError "Branch name cannot be empty"), log)
      \/ is_raise (fst (get_branch_by_name repo_id branch_name log)) = false)
  /\ (read_file_from_repo repo_id path_to_file branch_name log
      = (Raise (ValueError "File path cannot be empty"), log)
      \/ is_raise (fst (read_file_from_repo repo_id path_to_file branch_name log))
         = false)
  /\ (get_definition_by_name name log
      = (Raise (ValueError "Definition name cannot be empty"), log)
      \/ is_raise (fst (get_definition_by_name name log)) = false)
  /\ (get_artifact_details build_id artifact_name log
      = (Raise (ValueError ("Invalid build id - " ++ Py.str repr build_id)), log)
      \/ get_artifact_details build_id artifact_name log
         = (Raise (ValueError ("Invalid artifact name - " ++ artifact_name)), log)
      \/ is_raise (fst (get_artifact_details build_id artifact_name log)) = false).
Proof.
  repeat split.
  - unfold get_repository_by_name. destruct (Py.truthy (VStr name)); cbn [negb].
    + right. apply run_request_never_raises.
    + now left.
  - unfold get_branch_by_name. destruct (Py.truthy (VStr branch_name)); cbn [negb].
    + right. apply run_request_never_raises.
    + now left.
  - unfold read_file_from_repo. destruct (Py.truthy (VStr path_to_file)); cbn [negb].
    + right. apply run_request_never_raises.
    + now left.
  - unfold get_definition_by_name. destruct (Py.truthy (VStr name)); cbn [negb].
    + right. apply run_request_never_raises.
    + now left.
  - unfold get_artifact_details. destruct (Py.truthy build_id); cbn [negb].
    + destruct (Py.truthy (VStr artifact_name)); cbn [negb].
      * right. right. apply run_request_never_raises.
      * right. now left.
    + now left.
Qed.

(* ================================================================ *)
(** ** More on the resolver *)

(** X9: in PR mode the branch name is checked only by the pull-request
    lookup: for the branch master, or an empty branch, the resolver first
    looks the repository up and then raises the [ValueError] of
    [get_pull_request_id_by_branch], with no further request. *)
Theorem pr_mode_rejects_master_and_empty_branch_after_the_lookup
    artifact_name repository branch prefix n log0 repo log1 repo_id :
  get_repository_by_name repository log0 = (Ok repo, log1) ->
  Py.getitem repo "id" = Ok repo_id ->
  branch = "" \/ branch = "master" ->
  get_artifact_for_repo_and_branch artifact_name repository branch true prefix n log0
  = (Raise (ValueError ("invalid pr with source branch of '" ++ branch ++ "'")),
     log1).
Proof.
  intros Hrepo Hid Hbranch. unfold get_artifact_for_repo_and_branch.
  rewrite (bind_ok _ _ _ _ _ Hrepo).
  unfold bind at 1. unfold lift at 1. rewrite Hid.
  unfold bind at 1. unfold bind at 1. unfold get_pull_request_id_by_branch.
  destruct Hbranch as [-> | ->]; reflexivity.
Qed.

(** X10: a repository answer whose id is not truthy (null, empty, zero) is
    rejected by the build search before it sends anything: outside PR mode
    the resolver raises [ValueError] right after the repository lookup. *)
Theorem falsy_repository_id_is_rejected_before_the_build_search
    artifact_name repository branch prefix n log0 repo log1 repo_id :
  get_repository_by_name repository log0 = (Ok repo, log1) ->
  Py.getitem repo "id" = Ok repo_id ->
  Py.truthy repo_id = false ->
  get_artifact_for_repo_and_branch artifact_name repository branch false prefix n log0
  = (Raise (ValueError ("Invalid repo id - " ++ Py.str repr repo_id)), log1).
Proof.
  intros Hrepo Hid Hfalsy. unfold get_artifact_for_repo_and_branch.
  rewrite (bind_ok _ _ _ _ _ Hrepo).
  unfold bind at 1. unfold lift at 1. rewrite Hid.
  unfold bind at 1. unfold ret at 1. unfold bind at 1.
  unfold get_top_n_builds_for_repo_and_branch. rewrite Hfalsy. reflexivity.
Qed.

(** X11: a build whose artifact check cannot be completed (every attempt
    fails in transport or with a 5xx status) is treated like a build without
    the artifact: after the retries and their sleeps the resolver goes on
    with the older builds, so it can return an older version, and it raises
    nothing for the failed check. *)
Theorem unreachable_artifact_check_is_skipped
    artifact_name repository branch is_pr prefix n log0 newest older log1 build_id :
  search_window repository branch is_pr prefix n log0 = (Ok (newest :: older), log1) ->
  Py.getitem newest "id" = Ok build_id ->
  Py.truthy build_id = true ->
  artifact_name <> "" ->
  (forall log',
      is_transient (service log' (artifact_request build_id artifact_name)) = true) ->
  (Z.to_nat (retries self) <= fuel)%nat ->
  get_artifact_for_repo_and_branch artifact_name repository branch is_pr prefix n log0
  = scan_builds artifact_name older
      (log1 ++ backoff (artifact_request build_id artifact_name) 0
                 (Z.to_nat (retries self)))%list.
Proof.
  intros Hwin Hid Htid Hname Hdown Hfuel.
  rewrite (resolver_from_window artifact_name _ _ _ _ _ _ _ _ Hwin).
  apply scan_builds_cons with (build_id := build_id) (artifact := VNone);
    [exact Hid| |reflexivity].
  unfold get_artifact_details. rewrite Htid. cbn [negb].
  destruct (Py.truthy (VStr artifact_name)) eqn:E.
  - cbn [negb]. unfold _run_get_request. now apply run_request_exhausted.
  - apply truthy_str_empty in E. contradiction.
Qed.

Lemma leading_segment_cons sep c r :
  Py.leading_segment sep (String c r)
  = if Ascii.eqb c sep then "" else String c (Py.leading_segment sep r).
Proof.
  unfold Py.leading_segment. simpl.
  destruct (Ascii.eqb c sep); [reflexivity|].
  pose proof (split_on_not_nil sep r) as H.
  destruct (Py.split_on sep r); [contradiction|reflexivity].
Qed.

Lemma leading_segment_spec sep s :
  ~ In sep (list_ascii_of_string (Py.leading_segment sep s))
  /\ (s = Py.leading_segment sep s
      \/ exists rest, s = Py.leading_segment sep s ++ String sep rest).
Proof.
  induction s as [|c r [IHnot IHsplit]].
  - split; [intros []|now left].
  - rewrite leading_segment_cons.
    destruct (Ascii.eqb_spec c sep) as [->|Hne].
    + split; [intros []|]. right. exists r. reflexivity.
    + split.
      * simpl. intros [E|Hin]; [congruence|contradiction].
      * destruct IHsplit as [E | [rest E]].
        -- left. simpl. now rewrite <- E.
        -- right. exists rest. simpl. now rewrite <- E.
Qed.

Lemma resolver_ok_inv artifact_name repository branch is_pr prefix n log0 r log' :
  get_artifact_for_repo_and_branch artifact_name repository branch is_pr prefix n log0
  = (Ok r, log') ->
  exists builds log1,
    search_window repository branch is_pr prefix n log0 = (Ok builds, log1)
    /\ scan_builds artifact_name builds log1 = (Ok r, log').
Proof.
  unfold get_artifact_for_repo_and_branch. intros H.
  apply bind_ok_inv in H. destruct H as (repo & l1 & Hrepo & H).
  apply bind_ok_inv in H. destruct H as (repo_id & l2 & Hid & H).
  apply bind_ok_inv in H. destruct H as ([branch' prefix'] & l3 & Hif & H).
  apply bind_ok_inv in H. destruct H as (top & l4 & Htop & H).
  apply bind_ok_inv in H. destruct H as (builds & l5 & Hiter & H).
  exists builds, l5. split; [|exact H].
  assert (search_target repository branch is_pr prefix log0
          = (Ok (repo_id, branch', prefix'), l3)) as Htarget.
  { unfold search_target.
    rewrite (bind_ok _ _ _ _ _ Hrepo), (bind_ok _ _ _ _ _ Hid).
    destruct is_pr.
    - apply bind_ok_inv in Hif. destruct Hif as (pr & l6 & Hpr & Hif).
      apply bind_ok_inv in Hif. destruct Hif as (pr_id & l7 & Hpid & Hif).
      unfold ret in Hif. inversion Hif; subst.
      rewrite (bind_ok _ _ _ _ _ Hpr), (bind_ok _ _ _ _ _ Hpid). reflexivity.
    - unfold ret in Hif. inversion Hif; subst. reflexivity. }
  unfold search_window.
  rewrite (bind_ok _ _ _ _ _ Htarget). cbv beta iota.
  rewrite (bind_ok _ _ _ _ _ Htop). exact Hiter.
Qed.

(** X12: the version the resolver returns is cut out of the build number
    of one of the builds of the search window: it is that build number up
    to its first dash, so it contains no dash, and the build number is the
    version itself or the version followed by a dash and a suffix. *)
Theorem resolved_version_is_the_dash_free_start_of_a_build_number
    artifact_name repository branch is_pr prefix n log0 version url log' :
  get_artifact_for_repo_and_branch artifact_name repository branch is_pr prefix n log0
  = (Ok (VStr version, url), log') ->
  exists builds log1 build number,
    search_window repository branch is_pr prefix n log0 = (Ok builds, log1)
    /\ In build builds
    /\ Py.getitem build "buildNumber" = Ok (VStr number)
    /\ version = Py.leading_segment "-" number
    /\ ~ In "-"%char (list_ascii_of_string version)
    /\ (number = version \/ exists rest, number = version ++ String "-" rest).
Proof.
  intros H. apply resolver_ok_inv in H. destruct H as (builds & log1 & Hwin & Hscan).
  apply scan_builds_ok_inv in Hscan.
  destruct Hscan as [E | (build & number & a & resource & u & Hin & Hnum & _ & _ & _ & E)];
    [discriminate|].
  inversion E; subst version u.
  exists builds, log1, build, number.
  destruct (leading_segment_spec "-" number) as [Hnot Hsplit].
  repeat split; assumption.
Qed.

(** X18: when the build search gets no result from the executor (a 4xx
    answer, or all attempts failed), the resolver raises [AttributeError]:
    [get_top_n_builds_for_repo_and_branch] calls [.get] on the [None] it
    received.  This is a third outcome beside the exception for zero builds
    and the empty result for a missing artifact. *)
Theorem unanswered_build_search_raises_attribute_error
    artifact_name n repository branch is_pr prefix log0 repo_id branch' prefix'
    log1 log2 :
  search_target repository branch is_pr prefix log0
  = (Ok (repo_id, branch', prefix'), log1) ->
  Py.truthy repo_id = true ->
  _run_get_request "build/builds"
    (Some (builds_query repo_id branch' is_pr n
             (if Py.truthy (VStr prefix') then prefix' else ""))) true log1
  = (Ok VNone, log2) ->
  get_artifact_for_repo_and_branch artifact_name repository branch is_pr prefix n log0
  = (Raise AttributeError, log2).
Proof.
  intros Htarget Hid Hget.
  rewrite (resolver_from_target artifact_name _ _ _ _ n _ _ _ _ _ Htarget).
  apply bind_raise. unfold get_top_n_builds_for_repo_and_branch.
  rewrite Hid. cbn [negb]. rewrite (bind_ok _ _ _ _ _ Hget). reflexivity.
Qed.

(* ================================================================ *)
(** ** [get_repos_contains_branch] *)

Lemma get_branch_by_name_answered repo_id branch_name a log :
  0 < retries self -> (0 < fuel)%nat -> branch_name <> "" ->
  answers (branch_request repo_id branch_name) a ->
  get_branch_by_name repo_id branch_name log
  = (Ok a, (log ++ [Sent (branch_request repo_id branch_name)])%list).
Proof.
  intros Hr Hf Hname Ha. unfold get_branch_by_name.
  destruct (Py.truthy (VStr branch_name)) eqn:E.
  - cbn [negb]. now apply run_get_request_answered.
  - apply truthy_str_empty in E. contradiction.
Qed.

(** X13: when the service answers the branch lookup of every repository of
    the list (with "no result" or with a count), [get_repos_contains_branch]
    returns exactly the repositories whose count is positive, in the order
    of the list, and sends one request per repository, in that order;
    a repository without answer ("no result") is left out and raises
    nothing. *)
Theorem repos_with_a_positive_count_are_kept_in_order
    relevant_repos branch_name (answer : string -> value) :
  0 < retries self -> (0 < fuel)%nat -> branch_name <> "" ->
  (forall repo, In repo relevant_repos ->
     answers (branch_request (VStr repo) branch_name) (answer repo)
     /\ (answer repo = VNone
         \/ exists count, Py.getitem (answer repo) "count" = Ok (VInt count))) ->
  forall log,
    get_repos_contains_branch relevant_repos branch_name log
    = (Ok (filter (fun repo =>
                     match Py.getitem (answer repo) "count" with
                     | Ok (VInt count) => 0 <? count
                     | _ => false
                     end) relevant_repos),
       (log ++ map (fun repo => Sent (branch_request (VStr repo) branch_name))
                   relevant_repos)%list).
Proof.
  intros Hr Hf Hname. induction relevant_repos as [|repo rest IH]; intros Hall log.
  - simpl. unfold ret. now rewrite app_nil_r.
  - destruct (Hall repo (or_introl eq_refl)) as [Ha Hshape].
    assert (forall r, In r rest ->
              answers (branch_request (VStr r) branch_name) (answer r)
              /\ (answer r = VNone
                  \/ exists count, Py.getitem (answer r) "count" = Ok (VInt count)))
      as Hrest by (intros r Hin; apply Hall; now right).
    cbn [get_repos_contains_branch].
    rewrite (bind_ok _ _ _ _ _
               (get_branch_by_name_answered (VStr repo) branch_name (answer repo) log
                  Hr Hf Hname Ha)).
    cbn [filter map].
    destruct Hshape as [E | [count E]].
    + rewrite E. unfold bind at 1. unfold ret at 1.
      unfold bind at 1. rewrite (IH Hrest). simpl Py.getitem. cbv iota.
      unfold ret. now rewrite <- app_assoc.
    + rewrite E.
      destruct (answer repo) as [| | | | | |kvs] eqn:Eans; try discriminate.
      unfold bind at 1. unfold bind at 1. unfold lift. cbn [Py.gt0].
      unfold bind at 1. rewrite (IH Hrest). unfold ret.
      destruct (0 <? count); now rewrite <- app_assoc.
Qed.

(* ================================================================ *)
(** ** [download_artifact] *)

Lemma repeat_sent_shift (log : Log) (e : Event) j :
  ((log ++ [e]) ++ repeat e j)%list = (log ++ repeat e (S j))%list.
Proof. now rewrite <- app_assoc. Qed.

(** The answers of the first [i] attempts are responses without the
    success code. *)
Lemma download_loop_answered req retries :
  forall i n retry response log,
    (forall j, (j < i)%nat ->
       exists r, service (log ++ repeat (Sent req) j)%list req = Responded r
                 /\ status_code r <> AZURE_GET_SUCCESS_CODE) ->
    i = O \/ retry + Z.of_nat i <= retries -> (i <= n)%nat ->
    exists last,
      download_loop n req retries retry response log
      = download_loop (n - i) req retries (retry + Z.of_nat i) last
          (log ++ repeat (Sent req) i)%list
      /\ (i = O -> last = response)
      /\ (forall r, (0 < i)%nat ->
            service (log ++ repeat (Sent req) (i - 1))%list req = Responded r ->
            last = Some r).
Proof.
  induction i as [|i IH]; intros n retry response log Hpre Hle Hn.
  - exists response. rewrite Nat.sub_0_r, Z.add_0_r. simpl. rewrite app_nil_r.
    split; [reflexivity|]. split; [reflexivity|]. intros r H. lia.
  - destruct n as [|n]; [lia|].
    destruct (Hpre O ltac:(lia)) as (r0 & Hs0 & Hne0).
    simpl in Hs0. rewrite app_nil_r in Hs0.
    destruct (IH n (retry + 1) (Some r0) (log ++ [Sent req])%list) as (last & Hrun & H0 & Hlast).
    + intros j Hj. destruct (Hpre (S j) ltac:(lia)) as (r & Hs & Hne).
      exists r. split; [|exact Hne]. now rewrite repeat_sent_shift.
    + lia.
    + lia.
    + exists last. split; [|split].
      * cbn [download_loop].
        replace (retry <? retries) with true by (symmetry; apply Z.ltb_lt; lia).
        rewrite Hs0.
        replace (status_code r0 =? AZURE_GET_SUCCESS_CODE) with false
          by (symmetry; now apply Z.eqb_neq).
        rewrite Hrun, repeat_sent_shift. simpl Nat.sub.
        f_equal. lia.
      * discriminate.
      * intros r _ Hs. destruct i as [|i].
        -- replace (1 - 1)%nat with O in Hs by lia.
           simpl in Hs. rewrite app_nil_r in Hs.
           rewrite (H0 eq_refl). congruence.
        -- apply Hlast; [lia|].
           replace (S i - 1)%nat with i by lia.
           replace (S (S i) - 1)%nat with (S i) in Hs by lia.
           rewrite repeat_sent_shift. exact Hs.
Qed.

Lemma download_loop_bounded req retries :
  forall n retry response log,
    (Z.to_nat (retries - retry) <= n)%nat ->
    exists m last_or_error,
      (m <= Z.to_nat (retries - retry))%nat
      /\ download_loop n req retries retry response log
         = (last_or_error, (log ++ repeat (Sent req) m)%list)
      /\ last_or_error <> Diverge.
Proof.
  induction n as [|n IH]; intros retry response log Hn.
  - exists O, (Ok response). simpl. rewrite app_nil_r.
    replace (retry <? retries) with false by (symmetry; apply Z.ltb_ge; lia).
    split; [lia|]. split; [reflexivity|discriminate].
  - cbn [download_loop]. destruct (Z.ltb_spec retry retries) as [Hlt|Hge].
    + destruct (service log req) as [r|e].
      * destruct (status_code r =? AZURE_GET_SUCCESS_CODE).
        -- exists 1%nat, (Ok (Some r)).
           split; [lia|]. split; [reflexivity|discriminate].
        -- destruct (IH (retry + 1) (Some r) (log ++ [Sent req])%list)
             as (m & out & Hm & Hrun & Hout); [lia|].
           exists (S m), out. rewrite Hrun, repeat_sent_shift.
           split; [lia|]. split; [reflexivity|exact Hout].
      * exists 1%nat, (Raise e).
        split; [lia|]. split; [reflexivity|discriminate].
    + exists O, (Ok response). simpl. rewrite app_nil_r.
      split; [lia|]. split; [reflexivity|discriminate].
Qed.

(** X14: [download_artifact] always ends, after at most [retries] requests
    of the same URL and without sleeping between them; it writes a file only
    when it returns, and then the path it returns is the file it wrote,
    [artifact.zip] in the destination directory. *)
Theorem download_sends_at_most_retries_requests_and_writes_only_on_return
    url download_path retries log :
  exists m,
    (m <= Z.to_nat retries)%nat
    /\ snd (fst (download_artifact url download_path retries log))
       = (log ++ repeat (Sent (download_request url)) m)%list
    /\ match fst (fst (download_artifact url download_path retries log)) with
       | Ok zip_path =>
           zip_path = path_join download_path "artifact.zip"
           /\ exists body,
                snd (download_artifact url download_path retries log)
                = Some (zip_path, body)
       | Raise _ => snd (download_artifact url download_path retries log) = None
       | Diverge => False
       end.
Proof.
  unfold download_artifact.
  destruct (download_loop_bounded (download_request url) retries
              (Z.to_nat retries) 0 None log) as (m & out & Hm & Hrun & Hout).
  { rewrite Z.sub_0_r. lia. }
  rewrite Z.sub_0_r in Hm. exists m. split; [exact Hm|]. rewrite Hrun.
  destruct out as [[r|]|e|]; [| | |contradiction].
  - destruct (response_ok r); cbn [negb].
    + destruct (status_code r =? AZURE_GET_SUCCESS_CODE); cbn [negb fst snd].
      * split; [reflexivity|]. split; [reflexivity|]. eexists. reflexivity.
      * split; reflexivity.
    + split; reflexivity.
  - split; reflexivity.
  - split; reflexivity.
Qed.

(** X15: when the first answers are responses without the success code
    and the next one, within [retries] attempts, has it, [download_artifact]
    stops there: it has sent one request per answer, it writes the body of
    that response to [artifact.zip] in the destination directory and
    returns the path. *)
Theorem download_stops_at_the_first_success_and_writes_its_body
    url download_path retries log failed r req :
  req = download_request url ->
  (failed < Z.to_nat retries)%nat ->
  (forall j, (j < failed)%nat ->
     exists r', service (log ++ repeat (Sent req) j)%list req = Responded r'
                /\ status_code r' <> AZURE_GET_SUCCESS_CODE) ->
  service (log ++ repeat (Sent req) failed)%list req = Responded r ->
  status_code r = AZURE_GET_SUCCESS_CODE ->
  response_ok r = true ->
  download_artifact url download_path retries log
  = (Ok (path_join download_path "artifact.zip"),
     (log ++ repeat (Sent req) (S failed))%list,
     Some (path_join download_path "artifact.zip", content r)).
Proof.
  intros -> Hlt Hpre Hs Hcode Hok. unfold download_artifact.
  set (req := download_request url) in *.
  destruct (download_loop_answered req retries failed (Z.to_nat retries) 0 None log
              Hpre ltac:(lia) ltac:(lia)) as (last & Hrun & _).
  rewrite Hrun.
  destruct (Z.to_nat retries - failed)%nat as [|n] eqn:En; [lia|].
  cbn [download_loop].
  replace (0 + Z.of_nat failed <? retries) with true by (symmetry; apply Z.ltb_lt; lia).
  rewrite Hs, Hcode, Z.eqb_refl, Hok. cbn [negb].
  rewrite Hcode, Z.eqb_refl. cbn [negb].
  now rewrite <- app_assoc, <- repeat_cons.
Qed.

(** X16: [download_artifact] does not retry a transport failure: the
    exception of the first request that fails in transport is raised at
    once, whatever attempts are left, and nothing is written. *)
Theorem download_raises_the_first_transport_failure
    url download_path retries log failed e req :
  req = download_request url ->
  (failed < Z.to_nat retries)%nat ->
  (forall j, (j < failed)%nat ->
     exists r', service (log ++ repeat (Sent req) j)%list req = Responded r'
                /\ status_code r' <> AZURE_GET_SUCCESS_CODE) ->
  service (log ++ repeat (Sent req) failed)%list req = Failed e ->
  download_artifact url download_path retries log
  = (Raise e, (log ++ repeat (Sent req) (S failed))%list, None).
Proof.
  intros -> Hlt Hpre Hs. unfold download_artifact.
  set (req := download_request url) in *.
  destruct (download_loop_answered req retries failed (Z.to_nat retries) 0 None log
              Hpre ltac:(lia) ltac:(lia)) as (last & Hrun & _).
  rewrite Hrun.
  destruct (Z.to_nat retries - failed)%nat as [|n] eqn:En; [lia|].
  cbn [download_loop].
  replace (0 + Z.of_nat failed <? retries) with true by (symmetry; apply Z.ltb_lt; lia).
  rewrite Hs. now rewrite <- app_assoc, <- repeat_cons.
Qed.

(** X17: when none of the [retries] answers has the success code,
    [download_artifact] raises and writes nothing, after exactly [retries]
    requests.  What it raises is decided by the last response alone:
    [TimeoutError] when its status is from 400 to 599 (such a response is
    falsy), and [Exception] with the body for any other status; without any
    attempt ([retries] not positive) it is [TimeoutError] as well. *)
Theorem download_without_success_raises_by_the_last_response
    url download_path retries log req k :
  req = download_request url ->
  k = Z.to_nat retries ->
  (forall j, (j < k)%nat ->
     exists r', service (log ++ repeat (Sent req) j)%list req = Responded r'
                /\ status_code r' <> AZURE_GET_SUCCESS_CODE) ->
  exists e,
    download_artifact url download_path retries log
    = (Raise e, (log ++ repeat (Sent req) k)%list, None)
    /\ (k = O -> e = TimeoutError "Failed to download artifact")
    /\ (forall r, (0 < k)%nat ->
          service (log ++ repeat (Sent req) (k - 1))%list req = Responded r ->
          e = if response_ok r then GenericException (content r)
              else TimeoutError "Failed to download artifact").
Proof.
  intros -> -> Hpre. unfold download_artifact.
  set (req := download_request url) in *.
  destruct (download_loop_answered req retries (Z.to_nat retries) (Z.to_nat retries)
              0 None log Hpre ltac:(lia) ltac:(lia)) as (last & Hrun & H0 & Hlast).
  rewrite Hrun, Nat.sub_diag. cbn [download_loop].
  replace (0 + Z.of_nat (Z.to_nat retries) <? retries) with false
    by (symmetry; apply Z.ltb_ge; lia).
  destruct (Z.to_nat retries) as [|k] eqn:Ek.
  - rewrite (H0 eq_refl). eexists. split; [reflexivity|].
    split; [reflexivity|]. intros r H. lia.
  - destruct (Hpre k ltac:(lia)) as (r & Hs & Hne).
    assert (last = Some r) as ->.
    { apply Hlast; [lia|]. now replace (S k - 1)%nat with k by lia. }
    exists (if response_ok r then GenericException (content r)
            else TimeoutError "Failed to download artifact").
    split; [|split].
    + destruct (response_ok r); cbn [negb]; [|reflexivity].
      replace (status_code r =? AZURE_GET_SUCCESS_CODE) with false
        by (symmetry; now apply Z.eqb_neq).
      reflexivity.
    + discriminate.
    + intros r' _ Hs'. replace (S k - 1)%nat with k in Hs' by lia.
      rewrite Hs in Hs'. now inversion Hs'.
Qed.

(* ================================================================ *)
(** ** The resolver: results, searches and requests *)

Lemma appends_ret {A} (a : A) : appends (ret a).
Proof. intros log. exists []. simpl. now rewrite app_nil_r. Qed.

Lemma appends_raise {A} (e : exn) : appends (@raise A e).
Proof. intros log. exists []. simpl. now rewrite app_nil_r. Qed.

Lemma appends_lift {A} (r : res A) : appends (lift r).
Proof. intros log. exists []. simpl. now rewrite app_nil_r. Qed.

(** What a sequence logs starts with what its first part logs. *)
Lemma bind_log {A B} (c : M A) (f : A -> M B) :
  (forall a, appends (f a)) ->
  forall log, exists t, snd (bind c f log) = (snd (c log) ++ t)%list.
Proof.
  intros Hf log. unfold bind. destruct (c log) as [[a|e|] log1]; simpl.
  - apply Hf.
  - exists []. now rewrite app_nil_r.
  - exists []. now rewrite app_nil_r.
Qed.

Lemma appends_bind {A B} (c : M A) (f : A -> M B) :
  appends c -> (forall a, appends (f a)) -> appends (bind c f).
Proof.
  intros Hc Hf log. destruct (bind_log c f Hf log) as [t Ht].
  destruct (Hc log) as [t0 Ht0]. exists (t0 ++ t)%list.
  rewrite Ht, Ht0. now rewrite app_assoc.
Qed.

Lemma appends_run_request request_type url as_json params data :
  appends (__run_request request_type url as_json params data).
Proof. intros log. unfold __run_request. apply retry_loop_appends. Qed.

Lemma appends_get_artifact_details build_id artifact_name :
  appends (get_artifact_details build_id artifact_name).
Proof.
  unfold get_artifact_details.
  destruct (negb (Py.truthy build_id)); [apply appends_raise|].
  destruct (negb (Py.truthy (VStr artifact_name))); [apply appends_raise|].
  apply appends_run_request.
Qed.

Lemma appends_scan_builds artifact_name builds :
  appends (scan_builds artifact_name builds).
Proof.
  induction builds as [|build rest IH]; simpl.
  - apply appends_ret.
  - apply appends_bind; [apply appends_lift|]. intros build_id.
    apply appends_bind; [apply appends_get_artifact_details|]. intros artifact.
    destruct (Py.truthy artifact); [|exact IH].
    repeat (apply appends_bind; [apply appends_lift|]; intros ?).
    apply appends_ret.
Qed.

(** A client with at least one attempt sends its request first of all. *)
Lemma run_request_first_event request_type url as_json params data log :
  0 < retries self -> (0 < fuel)%nat ->
  exists t,
    snd (__run_request request_type url as_json params data log)
    = (log ++ Sent (request_args request_type url params data) :: t)%list.
Proof.
  intros Hr Hf. unfold __run_request.
  set (req := request_args request_type url params data).
  destruct fuel as [|n]; [lia|]. cbn [retry_loop].
  replace (0 <? retries self) with true by (symmetry; apply Z.ltb_lt; lia).
  pose proof (try_request_log req as_json log) as Hl.
  destruct (try_request req as_json log) as [[v|e|] log1]; simpl in Hl; subst log1.
  - exists []. reflexivity.
  - destruct (retry_loop_appends n req as_json (0 + 1)
                ((log ++ [Sent req]) ++ [Slept (2 ^ (0 + 1 + 1))])%list) as [t Ht].
    exists (Slept (2 ^ (0 + 1 + 1)) :: t). rewrite Ht. now rewrite <- !app_assoc.
  - destruct (retry_loop_appends n req as_json 0 (log ++ [Sent req])%list) as [t Ht].
    exists t. rewrite Ht. now rewrite <- app_assoc.
Qed.

(** The first thing the build search does for a usable repository id is
    to send its query. *)
Lemma top_builds_first_event repo_id branch is_pr n build_number log :
  0 < retries self -> (0 < fuel)%nat ->
  Py.truthy repo_id = true ->
  exists t,
    snd (get_top_n_builds_for_repo_and_branch repo_id branch is_pr n build_number log)
    = (log ++ Sent (request_args GET "build/builds"
                      (Some (builds_query repo_id branch is_pr n build_number)) VNone)
           :: t)%list.
Proof.
  intros Hr Hf Hid. unfold get_top_n_builds_for_repo_and_branch.
  rewrite Hid. cbn [negb].
  match goal with
  | |- exists t, snd (bind ?c ?f log) = _ =>
      destruct (bind_log c f) with (log := log) as [t1 Ht1]
  end.
  - intros builds. apply appends_bind; [apply appends_lift|]. intros v.
    destruct (negb (Py.truthy v)); [apply appends_raise|apply appends_lift].
  - unfold _run_get_request in *.
    destruct (run_request_first_event GET "build/builds" true
                (Some (builds_query repo_id branch is_pr n build_number)) VNone log
                Hr Hf) as [t0 Ht0].
    exists (t0 ++ t1)%list. rewrite Ht1, Ht0. now rewrite <- app_assoc.
Qed.

(** The string up to the first separator is fixed by these two facts. *)
Lemma leading_segment_unique sep s v :
  ~ In sep (list_ascii_of_string v) ->
  s = v \/ (exists rest, s = v ++ String sep rest) ->
  Py.leading_segment sep s = v.
Proof.
  revert s. induction v as [|c v IH]; intros s Hnot Hs.
  - destruct Hs as [-> | [rest ->]]; [reflexivity|].
    simpl. rewrite leading_segment_cons, Ascii.eqb_refl. reflexivity.
  - assert (c <> sep) as Hc by (intros E; apply Hnot; now left).
    assert (~ In sep (list_ascii_of_string v)) as Hv
        by (intros Hin; apply Hnot; now right).
    destruct Hs as [-> | [rest ->]]; simpl; rewrite leading_segment_cons;
      destruct (Ascii.eqb_spec c sep) as [E|_]; try contradiction; f_equal;
      apply IH; try assumption.
    + now left.
    + right. now exists rest.
Qed.

(** What the loop returns, with the check that found the artifact. *)
Lemma scan_builds_ok_found artifact_name builds :
  forall log r log',
    scan_builds artifact_name builds log = (Ok r, log') ->
    r = (VNone, VNone) \/
    exists build build_id number artifact resource url log_a log_b,
      In build builds /\
      Py.getitem build "id" = Ok build_id /\
      Py.getitem build "buildNumber" = Ok (VStr number) /\
      get_artifact_details build_id artifact_name log_a = (Ok artifact, log_b) /\
      Py.truthy artifact = true /\
      Py.getitem artifact "resource" = Ok resource /\
      Py.getitem resource "downloadUrl" = Ok url /\
      r = (VStr (Py.leading_segment "-" number), url).
Proof.
  induction builds as [|b builds IH]; intros log r log' H.
  - left. simpl in H. unfold ret in H. now inversion H.
  - simpl in H.
    apply bind_ok_inv in H. destruct H as (build_id & l1 & Hid & H).
    apply bind_ok_inv in H. destruct H as (a & l2 & Hcheck & H).
    apply lift_ok_inv in Hid. destruct Hid as [Hid ->].
    destruct (Py.truthy a) eqn:Ht.
    + right.
      apply bind_ok_inv in H. destruct H as (number & l3 & Hnum & H).
      apply bind_ok_inv in H. destruct H as (parts & l4 & Hparts & H).
      apply bind_ok_inv in H. destruct H as (version & l5 & Hver & H).
      apply bind_ok_inv in H. destruct H as (resource & l6 & Hres & H).
      apply bind_ok_inv in H. destruct H as (url & l7 & Hurl & H).
      apply lift_ok_inv in Hnum, Hparts, Hver, Hres, Hurl.
      destruct Hnum as [Hnum _], Hparts as [Hparts _], Hver as [Hver _],
               Hres as [Hres _], Hurl as [Hurl _].
      unfold ret in H. inversion H; subst r log'.
      destruct number as [| | |s| | |]; try discriminate.
      simpl in Hparts. inversion Hparts; subst parts.
      rewrite split_getindex_0 in Hver. inversion Hver; subst version.
      exists b, build_id, s, a, resource, url, log, l2.
      repeat split; try assumption. now left.
    + destruct (IH _ _ _ H)
        as [E | (b' & id' & number & a' & resource & url & la & lb & Hin & Hrest)].
      * now left.
      * right. exists b', id', number, a', resource, url, la, lb.
        split; [now right|exact Hrest].
Qed.

(** C3 (as amended): for every call of the resolver,
    - if it returns, it returns either [(None, None)] or a pair made from
      one build of the search window for which the artifact check returned
      an artifact: the version is a string, the build number of that build
      up to its first dash, and the second component is whatever the
      [downloadUrl] field of the [resource] of that artifact holds, passed
      on unchecked; in either case there is no URL without a version;
    - if the search window was obtained and the artifact check of every
      build in it returns no result, it returns [(None, None)] and does not
      raise. *)
Theorem resolver_returns_version_with_url_or_nothing
    artifact_name repository branch is_pr prefix n log0 :
  (forall r log',
      get_artifact_for_repo_and_branch artifact_name repository branch is_pr prefix n
        log0 = (Ok r, log') ->
      (r = (VNone, VNone) \/
       exists window log1 build build_id number version artifact resource url
              log_a log_b,
         search_window repository branch is_pr prefix n log0 = (Ok window, log1) /\
         In build window /\
         Py.getitem build "id" = Ok build_id /\
         Py.getitem build "buildNumber" = Ok (VStr number) /\
         get_artifact_details build_id artifact_name log_a = (Ok artifact, log_b) /\
         Py.truthy artifact = true /\
         Py.getitem artifact "resource" = Ok resource /\
         Py.getitem resource "downloadUrl" = Ok url /\
         ~ In "-"%char (list_ascii_of_string version) /\
         (number = version \/ exists suffix, number = version ++ String "-" suffix) /\
         r = (VStr version, url))
      /\ (fst r = VNone -> snd r = VNone))
  /\ (forall window log1,
        search_window repository branch is_pr prefix n log0 = (Ok window, log1) ->
        Forall (lacks_artifact artifact_name) window ->
        exists log',
          get_artifact_for_repo_and_branch artifact_name repository branch is_pr
            prefix n log0
          = (Ok (VNone, VNone), log')).
Proof.
  split.
  - intros r log' H.
    apply resolver_ok_inv in H. destruct H as (window & log1 & Hwin & Hscan).
    apply scan_builds_ok_found in Hscan.
    destruct Hscan
      as [-> | (build & build_id & number & a & resource & url & la & lb
                & Hin & Hid & Hnum & Hcheck & Ht & Hres & Hurl & ->)].
    + split; [now left|reflexivity].
    + split; [|simpl; discriminate].
      right. destruct (leading_segment_spec "-" number) as [Hnot Hsplit].
      exists window, log1, build, build_id, number, (Py.leading_segment "-" number),
        a, resource, url, la, lb.
      repeat split; assumption.
  - intros window log1 Hwin Hnone.
    rewrite (resolver_from_window artifact_name _ _ _ _ _ _ _ _ Hwin).
    now apply scan_builds_none.
Qed.

(** C4: for every call of the resolver,
    - if the build search it makes is answered with zero builds, it raises
      the exception "No builds for given parameters ..." of the build
      search;
    - if builds were found and the artifact check of each of them returns
      no result, it returns [(None, None)] and raises nothing;
    so that the two outcomes are told apart. *)
Theorem zero_builds_raise_and_missing_artifact_returns_nothing
    artifact_name repository branch is_pr prefix n log0 :
  (forall repo_id branch' prefix' log1 response log2,
      search_target repository branch is_pr prefix log0
      = (Ok (repo_id, branch', prefix'), log1) ->
      Py.truthy repo_id = true ->
      _run_get_request "build/builds"
        (Some (builds_query repo_id branch' is_pr n
                 (if Py.truthy (VStr prefix') then prefix' else ""))) true log1
      = (Ok response, log2) ->
      Py.get response "value" = Ok (VList []) ->
      get_artifact_for_repo_and_branch artifact_name repository branch is_pr prefix n
        log0
      = (Raise (GenericException
                  ("No builds for given parameters | branch: " ++ branch'
                   ++ " | repo: " ++ Py.str repr repo_id)), log2))
  /\ (forall window log1,
        search_window repository branch is_pr prefix n log0 = (Ok window, log1) ->
        Forall (lacks_artifact artifact_name) window ->
        exists log',
          get_artifact_for_repo_and_branch artifact_name repository branch is_pr
            prefix n log0
          = (Ok (VNone, VNone), log')).
Proof.
  split.
  - intros repo_id branch' prefix' log1 response log2 Htarget Hid Hget Hval.
    rewrite (resolver_from_target artifact_name _ _ _ _ n _ _ _ _ _ Htarget).
    apply bind_raise. now apply top_builds_zero with (response := response).
  - intros window log1 Hwin Hnone.
    rewrite (resolver_from_window artifact_name _ _ _ _ _ _ _ _ Hwin).
    now apply scan_builds_none.
Qed.

(** C5: when the artifact is on the k-th build of the window and on none
    of the builds ranked before it, the resolver returns the version of
    that build, which is its build number up to the first dash (the whole
    build number when it has no dash), with the download URL of its
    artifact, and after the build search it sends exactly k requests: the
    artifact checks of the builds ranked 1 to k, in order, each once.  No
    later build is checked and nothing sleeps. *)
Theorem first_build_with_artifact_is_returned_after_k_checks
    artifact_name repository branch is_pr prefix n log0 log1
    earlier hit later number version url k :
  0 < retries self -> (0 < fuel)%nat -> artifact_name <> "" ->
  search_window repository branch is_pr prefix n log0
  = (Ok (earlier ++ hit :: later)%list, log1) ->
  Forall (unpublished artifact_name) earlier ->
  published artifact_name hit number url ->
  ~ In "-"%char (list_ascii_of_string version) ->
  number = version \/ (exists suffix, number = version ++ String "-" suffix) ->
  k = S (length earlier) ->
  get_artifact_for_repo_and_branch artifact_name repository branch is_pr prefix n log0
  = (Ok (VStr version, url),
     (log1 ++ map Sent (map (artifact_request_of artifact_name)
                            (earlier ++ [hit])))%list)
  /\ length (map (artifact_request_of artifact_name) (earlier ++ [hit])) = k
  /\ firstn k (earlier ++ hit :: later) = (earlier ++ [hit])%list.
Proof.
  intros Hr Hf Hname Hwin Hearlier Hhit Hnot Hnumber ->. split; [|split].
  - rewrite (resolver_from_window artifact_name _ _ _ _ _ _ _ _ Hwin).
    rewrite (scan_builds_skips artifact_name earlier (hit :: later) Hr Hf Hname Hearlier).
    rewrite (scan_builds_hit artifact_name hit later number url _ Hr Hf Hname Hhit).
    rewrite (leading_segment_unique "-" number version Hnot Hnumber).
    rewrite !map_app. simpl map. now rewrite <- app_assoc.
  - rewrite length_map, length_app. simpl. lia.
  - replace (S (length earlier)) with (length (earlier ++ [hit]))
      by (rewrite length_app; simpl; lia).
    replace (earlier ++ hit :: later)%list with ((earlier ++ [hit]) ++ later)%list
      by (now rewrite <- app_assoc).
    rewrite firstn_app, Nat.sub_diag, firstn_all. simpl. now rewrite app_nil_r.
Qed.

(** C8: in PR mode, when the branch has an active pull request with
    identifier 42 (and the client has at least one attempt and a usable
    repository id), the next thing the resolver does after the pull-request
    lookup is to send the build search, a GET of build/builds, and the
    query of that request carries refs/pull/42/merge as branch name and the
    bare wildcard as build number (an empty prefix), whatever prefix the
    caller supplied. *)
Theorem pr_mode_searches_merge_reference_with_empty_prefix
    artifact_name repository branch prefix n log0 repo log1 repo_id pr log2 :
  0 < retries self -> (0 < fuel)%nat ->
  get_repository_by_name repository log0 = (Ok repo, log1) ->
  Py.getitem repo "id" = Ok repo_id ->
  Py.truthy repo_id = true ->
  get_pull_request_id_by_branch repo_id branch log1 = (Ok pr, log2) ->
  Py.getitem pr "pullRequestId" = Ok (VInt 42) ->
  exists search rest,
    snd (get_artifact_for_repo_and_branch artifact_name repository branch true prefix
           n log0)
    = (log2 ++ Sent search :: rest)%list
    /\ req_method search = GET
    /\ req_url search = base_url self ++ "/" ++ "build/builds"
    /\ Py.lookup (req_params search) "branchName" = Some (VStr "refs/pull/42/merge")
    /\ Py.lookup (req_params search) "buildNumber" = Some (VStr "*")
    /\ Py.lookup (req_params search) "reasonFilter" = Some (VStr "pullRequest").
Proof.
  intros Hr Hf Hrepo Hid Htid Hpr Hpid.
  pose proof (pr_mode_search_target repository branch prefix log0 repo log1 repo_id
                pr log2 (VInt 42) Hrepo Hid Hpr Hpid) as Htarget.
  rewrite (resolver_from_target artifact_name repository branch true prefix n log0
             repo_id _ _ log2 Htarget).
  change (if Py.truthy (VStr "") then "" else "") with "".
  change ("refs/pull/" ++ Py.str repr (VInt 42) ++ "/merge") with "refs/pull/42/merge".
  match goal with
  | |- exists search rest, snd (bind ?c ?f log2) = _ /\ _ =>
      destruct (bind_log c f) with (log := log2) as [t1 Ht1]
  end.
  { intros top. apply appends_bind; [apply appends_lift|]. intros builds.
    apply appends_scan_builds. }
  destruct (top_builds_first_event repo_id "refs/pull/42/merge" true n "" log2
              Hr Hf Htid) as [t0 Ht0].
  eexists. exists (t0 ++ t1)%list. split.
  - rewrite Ht1, Ht0. now rewrite <- app_assoc.
  - unfold request_args. cbn [req_method req_url req_params].
    rewrite !lookup_merge. repeat split; reflexivity.
Qed.

End Client.

(* ================================================================== *)
(** ** The model run on the concrete services *)

Module Runs.

Import Demo.

Local Notation resolver := (get_artifact_for_repo_and_branch loads dumps repr).
Local Notation run_request := (__run_request loads dumps).
Local Notation request := (request_args dumps client).

(** The two requests every resolver call in normal mode starts with. *)
Local Notation lookup_of name := (Sent (request GET ("git/repositories/" ++ name) None VNone)).
Local Notation search_of repo_id branch is_pr n prefix :=
  (Sent (request GET "build/builds"
           (Some (builds_query repo_id branch is_pr n prefix)) VNone)).

Example version_of_build_number : Py.leading_segment "-" "1.2.3-abcdef" = "1.2.3".
Proof. reflexivity. Qed.

(** C1: whatever the service does, [__run_request] raises nothing.  With
    the default of three attempts, a service that cannot be reached, and
    one that answers 500 each time, make it send the request three times,
    sleep 4, 8 and 16 seconds, and then return [None]: neither a timeout
    error nor an exception with the body of the last response. *)
Theorem exhausted_retries_return_none_and_raise_nothing :
  (forall decoder encoder service self fuel request_type url as_json params data log,
      is_raise (fst (__run_request decoder encoder service self fuel request_type url
                       as_json params data log)) = false)
  /\ run_request unreachable client 3%nat GET "git/repositories/app" true None VNone []
     = (Ok VNone,
        let req := request GET "git/repositories/app" None VNone in
        [Sent req; Slept 4; Sent req; Slept 8; Sent req; Slept 16])
  /\ run_request (always 500 "boom") client 3%nat GET "git/repositories/app" true None VNone []
     = (Ok VNone,
        let req := request GET "git/repositories/app" None VNone in
        [Sent req; Slept 4; Sent req; Slept 8; Sent req; Slept 16]).
Proof.
  split; [|split].
  - intros. apply run_request_never_raises.
  - reflexivity.
  - reflexivity.
Qed.

(** C2: in PR mode, when the pull-request search finds no active pull
    request for the branch, the resolver raises [TypeError] (it subscripts
    the [None] that the lookup returned), after two requests. *)
Theorem resolver_raises_type_error_without_active_pull_request :
  get_pull_request_id_by_branch loads dumps repr (project "no-prs" ["106"]) client 3%nat
    (VStr "r1") "feature/x" []
  = (Ok VNone,
     [Sent (request GET "git/repositories/r1/pullrequests"
              (Some [("searchCriteria.status", VStr "active");
                     ("searchCriteria.sourceRefName", VStr "refs/heads/feature/x");
                     ("$top", VInt 1)]) VNone)])
  /\ resolver (project "no-prs" ["106"]) client 3%nat "X" "app" "feature/x" true "*" 300 []
     = (Raise TypeError,
        [lookup_of "app";
         Sent (request GET "git/repositories/r1/pullrequests"
                 (Some [("searchCriteria.status", VStr "active");
                        ("searchCriteria.sourceRefName", VStr "refs/heads/feature/x");
                        ("$top", VInt 1)]) VNone)]).
Proof. split; reflexivity. Qed.

(** C6: when the service has no repository of the given name (it answers
    the lookup with 404), the lookup returns [None] and the resolver
    raises [TypeError] when it subscripts it. *)
Theorem resolver_raises_type_error_for_unknown_repository :
  get_repository_by_name loads dumps (project "prs" ["106"]) client 3%nat "ghost" []
  = (Ok VNone, [lookup_of "ghost"])
  /\ resolver (project "prs" ["106"]) client 3%nat "X" "ghost" "master" false "*" 300 []
     = (Raise TypeError, [lookup_of "ghost"]).
Proof. split; reflexivity. Qed.

(** C7, as stated, fails for write-type calls: a POST answered with 404
    returns [None] like a GET; nothing is raised and the error body is
    dropped. *)
Lemma post_answered_404_returns_none :
  create_new_branch loads dumps repr (always 404 "branch exists") client 3%nat
    (VStr "r1") (VDict [("refUpdates", VList [])]) []
  = (Ok VNone,
     [Sent (request POST "git/repositories/r1/pushes" None
              (VDict [("refUpdates", VList [])]))])
  /\ is_raise (fst (create_new_branch loads dumps repr (always 404 "branch exists")
                      client 3%nat (VStr "r1") (VDict [("refUpdates", VList [])]) []))
     = false.
Proof. split; reflexivity. Qed.

Lemma definitive_status_witness :
  run_request (always 404 "branch exists") client 1%nat PATCH
    "git/repositories/r1/pullrequests/42" true None (VDict [("status", VStr "abandoned")]) []
  = (Ok VNone,
     [Sent (request PATCH "git/repositories/r1/pullrequests/42" None
              (VDict [("status", VStr "abandoned")]))]).
Proof.
  apply (definitive_status_returns_none_without_retry loads dumps
           (always 404 "branch exists") client 1%nat PATCH
           "git/repositories/r1/pullrequests/42" true None
           (VDict [("status", VStr "abandoned")]) []
           (mkResponse 404 "branch exists")).
  - reflexivity.
  - apply le_n.
  - reflexivity.
  - reflexivity.
  - reflexivity.
Defined.

Lemma responses_500_500_200_witness :
  run_request (scripted [500; 500] "payload") client 3%nat GET "build/builds/7" true
    None VNone []
  = (Ok (VDict [("ok", VBool true)]),
     let req := request GET "build/builds/7" None VNone in
     [Sent req; Slept 4; Sent req; Slept 8; Sent req])
  /\ 4 = 2 ^ (1 + 1) /\ 8 = 2 ^ (2 + 1).
Proof.
  apply (responses_500_500_200_return_payload_after_sleeping_4_and_8 loads dumps
           (scripted [500; 500] "payload") client 3%nat GET "build/builds/7" true
           None VNone [] (request GET "build/builds/7" None VNone)
           "payload" "payload" (mkResponse 200 "payload")
           (VDict [("ok", VBool true)])).
  - reflexivity.
  - discriminate.
  - apply le_n.
  - reflexivity.
  - reflexivity.
  - reflexivity.
  - reflexivity.
  - reflexivity.
Defined.

Local Notation pr_search_of repo_path branch :=
  (Sent (request GET ("git/repositories/" ++ repo_path ++ "/pullrequests")
           (Some [("searchCriteria.status", VStr "active");
                  ("searchCriteria.sourceRefName", VStr ("refs/heads/" ++ branch));
                  ("$top", VInt 1)]) VNone)).

Lemma lib_builds_lack_artifact :
  Forall (lacks_artifact loads dumps repr (project "prs" ["106"]) client 1%nat "X")
         lib_builds.
Proof.
  repeat constructor.
  - exists (VInt 202). split; [reflexivity|].
    intros log. eexists. eexists. split; reflexivity.
  - exists (VInt 201). split; [reflexivity|].
    intros log. eexists. eexists. split; reflexivity.
Defined.

(** C3, as stated, fails on the second component: when the service sends
    the artifact with a null [downloadUrl], the resolver returns the version
    of the build with [None] in place of the URL, which is neither a pair
    with both components present nor [(None, None)]. *)
Lemma resolver_returns_version_without_url :
  get_artifact_for_repo_and_branch null_url_loads dumps repr (project "prs" ["106"])
    client 1%nat "X" "app" "master" false "*" 10 []
  = (Ok (VStr "1.2.3", VNone),
     ([lookup_of "app"; search_of (VStr "r1") "master" false 10 "*"]
      ++ map Sent (map (artifact_request_of dumps repr client "X") (firstn 5 builds)))%list).
Proof. reflexivity. Qed.

Lemma resolver_returns_version_with_url_or_nothing_witness :
  (((VStr "1.2.3", VStr "https://dev.azure.com/org/_apis/X.zip") = (VNone, VNone) \/
    exists window log1 build build_id number version artifact resource url log_a log_b,
      search_window loads dumps repr (project "prs" ["106"]) client 1%nat
        "app" "master" false "*" 10 [] = (Ok window, log1) /\
      In build window /\
      Py.getitem build "id" = Ok build_id /\
      Py.getitem build "buildNumber" = Ok (VStr number) /\
      get_artifact_details loads dumps repr (project "prs" ["106"]) client 1%nat
        build_id "X" log_a = (Ok artifact, log_b) /\
      Py.truthy artifact = true /\
      Py.getitem artifact "resource" = Ok resource /\
      Py.getitem resource "downloadUrl" = Ok url /\
      ~ In "-"%char (list_ascii_of_string version) /\
      (number = version \/ exists suffix, number = version ++ String "-" suffix) /\
      (VStr "1.2.3", VStr "https://dev.azure.com/org/_apis/X.zip") = (VStr version, url))
   /\ (fst (VStr "1.2.3", VStr "https://dev.azure.com/org/_apis/X.zip") = VNone ->
       snd (VStr "1.2.3", VStr "https://dev.azure.com/org/_apis/X.zip") = VNone))
  /\ exists log',
       resolver (project "prs" ["106"]) client 1%nat "X" "lib" "master" false "*" 300 []
       = (Ok (VNone, VNone), log').
Proof.
  split.
  - apply (proj1 (resolver_returns_version_with_url_or_nothing loads dumps repr
                    (project "prs" ["106"]) client 1%nat "X" "app" "master" false "*"
                    10 [])
             (VStr "1.2.3", VStr "https://dev.azure.com/org/_apis/X.zip")
             (snd (resolver (project "prs" ["106"]) client 1%nat "X" "app" "master"
                     false "*" 10 []))).
    reflexivity.
  - apply (proj2 (resolver_returns_version_with_url_or_nothing loads dumps repr
                    (project "prs" ["106"]) client 1%nat "X" "lib" "master" false "*"
                    300 [])
             lib_builds [lookup_of "lib"; search_of (VStr "r3") "master" false 300 "*"]).
    + reflexivity.
    + exact lib_builds_lack_artifact.
Defined.

Lemma zero_builds_witness :
  resolver (project "prs" ["106"]) client 1%nat "X" "fresh" "master" false "*" 300 []
  = (Raise (GenericException
              ("No builds for given parameters | branch: " ++ "master"
               ++ " | repo: " ++ Py.str repr (VStr "r2"))),
     [lookup_of "fresh"; search_of (VStr "r2") "master" false 300 "*"])
  /\ exists log',
       resolver (project "prs" ["106"]) client 1%nat "X" "lib" "master" false "*" 300 []
       = (Ok (VNone, VNone), log').
Proof.
  split.
  - apply (proj1 (zero_builds_raise_and_missing_artifact_returns_nothing loads dumps
                    repr (project "prs" ["106"]) client 1%nat "X" "fresh" "master"
                    false "*" 300 [])
             (VStr "r2") "master" "*" [lookup_of "fresh"]
             (VDict [("count", VInt 0); ("value", VList [])])
             [lookup_of "fresh"; search_of (VStr "r2") "master" false 300 "*"]).
    + reflexivity.
    + reflexivity.
    + reflexivity.
    + reflexivity.
  - apply (proj2 (zero_builds_raise_and_missing_artifact_returns_nothing loads dumps
                    repr (project "prs" ["106"]) client 1%nat "X" "lib" "master"
                    false "*" 300 [])
             lib_builds [lookup_of "lib"; search_of (VStr "r3") "master" false 300 "*"]).
    + reflexivity.
    + exact lib_builds_lack_artifact.
Defined.

Lemma fifth_ranked_build_witness :
  resolver (project "prs" ["106"]) client 1%nat "X" "app" "master" false "*" 10 []
  = (Ok (VStr "1.2.3", VStr "https://dev.azure.com/org/_apis/X.zip"),
     ([lookup_of "app"; search_of (VStr "r1") "master" false 10 "*"]
      ++ map Sent (map (artifact_request_of dumps repr client "X")
                       (firstn 4 builds ++ [build 106 "1.2.3-abcdef"])))%list)
  /\ length (map (artifact_request_of dumps repr client "X")
                 (firstn 4 builds ++ [build 106 "1.2.3-abcdef"])) = 5%nat
  /\ firstn 5 (firstn 4 builds ++ build 106 "1.2.3-abcdef" :: skipn 5 builds)
     = (firstn 4 builds ++ [build 106 "1.2.3-abcdef"])%list.
Proof.
  apply (first_build_with_artifact_is_returned_after_k_checks loads dumps repr
           (project "prs" ["106"]) client 1%nat "X" "app" "master" false "*" 10 []
           [lookup_of "app"; search_of (VStr "r1") "master" false 10 "*"]
           (firstn 4 builds) (build 106 "1.2.3-abcdef") (skipn 5 builds)
           "1.2.3-abcdef" "1.2.3" (VStr "https://dev.azure.com/org/_apis/X.zip") 5%nat).
  - reflexivity.
  - apply le_n.
  - discriminate.
  - reflexivity.
  - repeat constructor.
    + exists (VInt 110). split; [reflexivity|]. split; [reflexivity|].
      exists VNone. split; [intros log|]; reflexivity.
    + exists (VInt 109). split; [reflexivity|]. split; [reflexivity|].
      exists VNone. split; [intros log|]; reflexivity.
    + exists (VInt 108). split; [reflexivity|]. split; [reflexivity|].
      exists VNone. split; [intros log|]; reflexivity.
    + exists (VInt 107). split; [reflexivity|]. split; [reflexivity|].
      exists VNone. split; [intros log|]; reflexivity.
  - exists (VInt 106), artifact,
      (VDict [("type", VStr "Container");
              ("downloadUrl", VStr "https://dev.azure.com/org/_apis/X.zip")]).
    repeat (split; [reflexivity|]). split; [intros log; reflexivity|].
    repeat split; reflexivity.
  - simpl. intuition discriminate.
  - right. exists "abcdef". reflexivity.
  - reflexivity.
Defined.

Lemma pr_mode_witness :
  exists search rest,
    snd (resolver (project "prs" ["106"]) client 1%nat "X" "app" "feature/x" true "1.2"
           10 [])
    = ([lookup_of "app"; pr_search_of "r1" "feature/x"] ++ Sent search :: rest)%list
    /\ req_method search = GET
    /\ req_url search = base_url client ++ "/" ++ "build/builds"
    /\ Py.lookup (req_params search) "branchName" = Some (VStr "refs/pull/42/merge")
    /\ Py.lookup (req_params search) "buildNumber" = Some (VStr "*")
    /\ Py.lookup (req_params search) "reasonFilter" = Some (VStr "pullRequest").
Proof.
  apply (pr_mode_searches_merge_reference_with_empty_prefix loads dumps repr
           (project "prs" ["106"]) client 1%nat "X" "app" "feature/x" "1.2" 10 []
           repo [lookup_of "app"] (VStr "r1") pull_request
           [lookup_of "app"; pr_search_of "r1" "feature/x"]).
  - reflexivity.
  - apply le_n.
  - reflexivity.
  - reflexivity.
  - reflexivity.
  - reflexivity.
  - reflexivity.
Defined.

(** The requests of that run: the build search carries the merge reference
    and the bare wildcard, not the prefix 1.2 of the caller. *)
Example pr_mode_run :
  let run := resolver (project "prs" ["106"]) client 1%nat "X" "app" "feature/x"
               true "1.2" 10 [] in
  fst run = Ok (VStr "1.2.3", VStr "https://dev.azure.com/org/_apis/X.zip")
  /\ nth_error (calls (snd run)) 2
     = Some (request GET "build/builds"
               (Some [("reasonFilter", VStr "pullRequest");
                      ("statusFilter", VStr "active");
                      ("resultFilter", VStr "");
                      ("$top", VStr "10");
                      ("branchName", VStr "refs/pull/42/merge");
                      ("repositoryId", VStr "r1");
                      ("repositoryType", VStr "TfsGit");
                      ("queryOrder", VStr "finishTimeDescending");
                      ("buildNumber", VStr "*")]) VNone).
Proof. split; reflexivity. Qed.

(** C10, as stated, fails for the resolver: with an empty artifact name it
    first looks the repository up and searches the builds, and the
    [ValueError] comes from the first artifact check, after two requests. *)
Lemma resolver_with_empty_artifact_name_sends_requests :
  resolver (project "prs" ["106"]) client 1%nat "" "app" "master" false "*" 300 []
  = (Raise (ValueError "Invalid artifact name - "),
     [lookup_of "app"; search_of (VStr "r1") "master" false 300 "*"])
  /\ length (calls (snd (resolver (project "prs" ["106"]) client 1%nat "" "app"
                           "master" false "*" 300 []))) = 2%nat.
Proof. split; reflexivity. Qed.

End Runs.

(* ================================================================== *)
(** ** More runs on the concrete services *)

Module MoreRuns.

Import Demo.

Local Notation request := (request_args dumps client).
Local Notation resolver := (get_artifact_for_repo_and_branch loads dumps repr).
Local Notation lookup_of name := (Sent (request GET ("git/repositories/" ++ name) None VNone)).
Local Notation search_of repo_id branch is_pr n prefix :=
  (Sent (request GET "build/builds"
           (Some (builds_query repo_id branch is_pr n prefix)) VNone)).

Lemma run_request_ends_within_retries_witness :
  exists m v,
    ((m < 3)%nat /\
     __run_request loads dumps (scripted [503; 500] "payload") client 3%nat GET
       "build/builds/7" true None VNone []
     = (Ok v, ([] ++ backoff (request GET "build/builds/7" None VNone) 0 m
                  ++ [Sent (request GET "build/builds/7" None VNone)])%list))
    \/ (m = 3%nat /\ v = VNone /\
        __run_request loads dumps (scripted [503; 500] "payload") client 3%nat GET
          "build/builds/7" true None VNone []
        = (Ok VNone, ([] ++ backoff (request GET "build/builds/7" None VNone) 0 3)%list)).
Proof.
  apply (run_request_ends_within_retries loads dumps (scripted [503; 500] "payload")
           client 3%nat GET "build/builds/7" true None VNone []
           (request GET "build/builds/7" None VNone) 3%nat).
  - reflexivity.
  - intros log' r H. unfold scripted in H. inversion H. simpl.
    destruct (length (calls log')) as [|[|[|n]]]; simpl; lia.
  - reflexivity.
  - apply le_n.
Defined.

Lemma exhausted_run_request_witness :
  exists trace,
    __run_request loads dumps unreachable client 3%nat GET "build/builds/7" true
      None VNone []
    = (Ok VNone, ([] ++ trace)%list)
    /\ calls trace = repeat (request GET "build/builds/7" None VNone) 3
    /\ sleeps trace = map (fun i => 2 ^ (Z.of_nat i + 1)) (seq 1 3)
    /\ fold_right Z.add 0 (sleeps trace) = 2 ^ (Z.of_nat 3 + 2) - 4.
Proof.
  apply (exhausted_run_request_sleeps_after_every_attempt loads dumps unreachable
           client 3%nat GET "build/builds/7" true None VNone []
           (request GET "build/builds/7" None VNone) 3%nat).
  - reflexivity.
  - intros log'. reflexivity.
  - reflexivity.
  - apply le_n.
Defined.

(** The sleeps of three failed attempts: 4, 8 and 16 seconds, 28 in all. *)
Example three_failed_attempts_sleep_28_seconds :
  map (fun i => 2 ^ (Z.of_nat i + 1)) (seq 1 3) = [4; 8; 16]
  /\ 2 ^ (Z.of_nat 3 + 2) - 4 = 28.
Proof. split; reflexivity. Qed.

Lemma status_600_witness :
  __run_request loads dumps (always 600 "odd") client 5%nat GET "build/builds/7" true
    None VNone []
  = (Diverge, ([] ++ repeat (Sent (request GET "build/builds/7" None VNone)) 5)%list)
  /\ sleeps (repeat (Sent (request GET "build/builds/7" None VNone)) 5) = [].
Proof.
  apply (status_600_is_resent_without_sleep_or_end loads dumps (always 600 "odd")
           client 5%nat GET "build/builds/7" true None VNone []
           (request GET "build/builds/7" None VNone)).
  - reflexivity.
  - reflexivity.
  - intros log'. exists (mkResponse 600 "odd"). split; [reflexivity|]. simpl. lia.
Defined.

Lemma undecodable_success_body_witness :
  __run_request loads dumps (bodies ["<html>"]) client 2%nat GET "build/builds/7" true
    None VNone []
  = (Ok (VDict [("ok", VBool true)]),
     ([] ++ [Sent (request GET "build/builds/7" None VNone); Slept 4;
             Sent (request GET "build/builds/7" None VNone)])%list).
Proof.
  apply (undecodable_success_body_is_retried loads dumps (bodies ["<html>"]) client
           2%nat GET "build/builds/7" None VNone []
           (request GET "build/builds/7" None VNone)
           (mkResponse 200 "<html>") (mkResponse 200 "payload")
           (VDict [("ok", VBool true)])).
  - reflexivity.
  - discriminate.
  - apply le_n.
  - reflexivity.
  - reflexivity.
  - reflexivity.
  - reflexivity.
  - reflexivity.
  - reflexivity.
Defined.

Lemma request_params_witness :
  Py.lookup (req_params (request GET "build/definitions"
                           (Some [("name", VStr "nightly"); ("api-version", VStr "7.0")])
                           VNone)) "api-version"
  = match Some [("name", VStr "nightly"); ("api-version", VStr "7.0")] with
    | Some given =>
        match Py.lookup given "api-version" with
        | Some v => Some v
        | None => Py.lookup (base_params client) "api-version"
        end
    | None => Py.lookup (base_params client) "api-version"
    end.
Proof.
  apply (request_params_are_defaults_overridden_by_the_call dumps client GET
           "build/definitions"
           (Some [("name", VStr "nightly"); ("api-version", VStr "7.0")]) VNone
           "api-version").
  simpl. repeat constructor; simpl; intuition discriminate.
Defined.

(** The default version is sent unless the call overrides it. *)
Example api_version_of_a_request :
  Py.lookup (req_params (request GET "build/definitions" (Some [("name", VStr "nightly")])
                           VNone)) "api-version" = Some (VStr "5.1")
  /\ Py.lookup (req_params (request GET "build/definitions"
                              (Some [("name", VStr "nightly"); ("api-version", VStr "7.0")])
                              VNone)) "api-version" = Some (VStr "7.0").
Proof. split; reflexivity. Qed.

Lemma own_api_version_witness :
  (exists req,
      nth_error (calls (snd (abandon_pr loads dumps repr (always 404 "gone") client 1%nat
                               (VStr "r1") (VInt 42) [])))
                (length (calls []))
      = Some req
      /\ req_method req = PATCH
      /\ forall key,
           Py.lookup (req_params req) key
           = if String.eqb key "api-version" then Some (VStr "6.1-preview.1")
             else Py.lookup (base_params client) key)
  /\ (exists req,
         nth_error (calls (snd (queue_build loads dumps (always 404 "gone") client 1%nat
                                  (VDict [("definition", VDict [("id", VInt 3)])]) [])))
                   (length (calls []))
         = Some req
         /\ req_method req = POST
         /\ forall key,
              Py.lookup (req_params req) key
              = if String.eqb key "api-version" then Some (VStr "6.0")
                else Py.lookup (base_params client) key).
Proof.
  apply (abandon_pr_and_queue_build_send_their_own_api_version loads dumps repr
           (always 404 "gone") client 1%nat (VStr "r1") (VInt 42)
           (VDict [("definition", VDict [("id", VInt 3)])]) []).
  - simpl. constructor; [intros []|constructor].
  - reflexivity.
  - apply le_n.
Defined.

Lemma pr_mode_master_witness :
  resolver (project "prs" ["106"]) client 1%nat "X" "app" "master" true "*" 300 []
  = (Raise (ValueError ("invalid pr with source branch of '" ++ "master" ++ "'")),
     [lookup_of "app"]).
Proof.
  apply (pr_mode_rejects_master_and_empty_branch_after_the_lookup loads dumps repr
           (project "prs" ["106"]) client 1%nat "X" "app" "master" "*" 300 []
           repo [lookup_of "app"] (VStr "r1")).
  - reflexivity.
  - reflexivity.
  - now right.
Defined.

Lemma falsy_repository_id_witness :
  get_artifact_for_repo_and_branch anonymous_loads dumps repr (always 200 "{}") client
    1%nat "X" "app" "master" false "*" 300 []
  = (Raise (ValueError ("Invalid repo id - " ++ Py.str repr VNone)), [lookup_of "app"]).
Proof.
  apply (falsy_repository_id_is_rejected_before_the_build_search anonymous_loads dumps
           repr (always 200 "{}") client 1%nat "X" "app" "master" "*" 300 []
           (VDict [("id", VNone); ("name", VStr "app")]) [lookup_of "app"] VNone).
  - reflexivity.
  - reflexivity.
  - reflexivity.
Defined.

Lemma unreachable_artifact_check_witness :
  resolver newest_unreachable client 3%nat "X" "app" "master" false "*" 10 []
  = scan_builds loads dumps repr newest_unreachable client 3%nat "X" (skipn 1 builds)
      ([lookup_of "app"; search_of (VStr "r1") "master" false 10 "*"]
       ++ backoff (artifact_request dumps repr client (VInt 110) "X") 0
            (Z.to_nat (retries client)))%list.
Proof.
  apply (unreachable_artifact_check_is_skipped loads dumps repr newest_unreachable
           client 3%nat "X" "app" "master" false "*" 10 []
           (build 110 "1.2.8-f00d") (skipn 1 builds)
           [lookup_of "app"; search_of (VStr "r1") "master" false 10 "*"] (VInt 110)).
  - reflexivity.
  - reflexivity.
  - reflexivity.
  - discriminate.
  - intros log'. reflexivity.
  - apply le_n.
Defined.

(** In that run the newest build 110 is given up after three requests and
    the sleeps 4, 8 and 16, and the version of the build 109 is returned. *)
Example unreachable_newest_build_run :
  let run := resolver newest_unreachable client 3%nat "X" "app" "master" false "*" 10 [] in
  fst run = Ok (VStr "1.2.7", VStr "https://dev.azure.com/org/_apis/X.zip")
  /\ length (calls (snd run)) = 6%nat
  /\ sleeps (snd run) = [4; 8; 16].
Proof. repeat split; reflexivity. Qed.

Lemma unanswered_build_search_witness :
  resolver search_forbidden client 1%nat "X" "app" "master" false "*" 10 []
  = (Raise AttributeError,
     [lookup_of "app"; search_of (VStr "r1") "master" false 10 "*"]).
Proof.
  apply (unanswered_build_search_raises_attribute_error loads dumps repr
           search_forbidden client 1%nat "X" 10 "app" "master" false "*" []
           (VStr "r1") "master" "*" [lookup_of "app"]
           [lookup_of "app"; search_of (VStr "r1") "master" false 10 "*"]).
  - reflexivity.
  - reflexivity.
  - reflexivity.
Defined.

Lemma resolved_version_witness :
  exists window log1 build number,
    search_window loads dumps repr (project "prs" ["106"]) client 1%nat "app" "master"
      false "*" 10 [] = (Ok window, log1)
    /\ In build window
    /\ Py.getitem build "buildNumber" = Ok (VStr number)
    /\ "1.2.3" = Py.leading_segment "-" number
    /\ ~ In "-"%char (list_ascii_of_string "1.2.3")
    /\ (number = "1.2.3" \/ exists rest, number = "1.2.3" ++ String "-" rest).
Proof.
  apply (resolved_version_is_the_dash_free_start_of_a_build_number loads dumps repr
           (project "prs" ["106"]) client 1%nat "X" "app" "master" false "*" 10 []
           "1.2.3" (VStr "https://dev.azure.com/org/_apis/X.zip")
           (snd (resolver (project "prs" ["106"]) client 1%nat "X" "app" "master" false
                   "*" 10 []))).
  reflexivity.
Defined.

Lemma repos_with_branch_witness :
  get_repos_contains_branch ref_loads dumps repr branches client 1%nat
    ["r1"; "r2"; "r9"; "r3"] "release" []
  = (Ok (filter (fun repo =>
                   match Py.getitem (ref_answer repo) "count" with
                   | Ok (VInt count) => 0 <? count
                   | _ => false
                   end) ["r1"; "r2"; "r9"; "r3"]),
     ([] ++ map (fun repo => Sent (branch_request dumps repr client (VStr repo) "release"))
               ["r1"; "r2"; "r9"; "r3"])%list).
Proof.
  apply (repos_with_a_positive_count_are_kept_in_order ref_loads dumps repr branches
           client 1%nat ["r1"; "r2"; "r9"; "r3"] "release" ref_answer).
  - reflexivity.
  - apply le_n.
  - discriminate.
  - intros repo [<-|[<-|[<-|[<-|[]]]]].
    + split; [intros log; reflexivity|]. right. exists 1. reflexivity.
    + split; [intros log; reflexivity|]. right. exists 0. reflexivity.
    + split; [intros log; reflexivity|]. left. reflexivity.
    + split; [intros log; reflexivity|]. right. exists 1. reflexivity.
Defined.

(** The repositories kept in that run. *)
Example repos_with_branch_run :
  fst (get_repos_contains_branch ref_loads dumps repr branches client 1%nat
         ["r1"; "r2"; "r9"; "r3"] "release" [])
  = Ok ["r1"; "r3"].
Proof. reflexivity. Qed.

Local Notation zip_request url := (download_request [] url).

Lemma download_first_success_witness :
  download_artifact (scripted [500; 404] "PK-bytes") 200 join [] "https://host/X.zip"
    "/tmp/out" 3 []
  = (Ok (join "/tmp/out" "artifact.zip"),
     ([] ++ repeat (Sent (zip_request "https://host/X.zip")) 3)%list,
     Some (join "/tmp/out" "artifact.zip", content (mkResponse 200 "PK-bytes"))).
Proof.
  apply (download_stops_at_the_first_success_and_writes_its_body
           (scripted [500; 404] "PK-bytes") 200 join [] "https://host/X.zip" "/tmp/out"
           3 [] 2%nat (mkResponse 200 "PK-bytes") (zip_request "https://host/X.zip")).
  - reflexivity.
  - simpl. lia.
  - intros j Hj. destruct j as [|[|j]]; [| |lia].
    + eexists. split; [reflexivity|]. simpl. discriminate.
    + eexists. split; [reflexivity|]. simpl. discriminate.
  - reflexivity.
  - reflexivity.
  - reflexivity.
Defined.

Lemma download_transport_failure_witness :
  download_artifact (drops_after 1) 200 join [] "https://host/X.zip" "/tmp/out" 3 []
  = (Raise RequestException,
     ([] ++ repeat (Sent (zip_request "https://host/X.zip")) 2)%list, None).
Proof.
  apply (download_raises_the_first_transport_failure (drops_after 1) 200 join []
           "https://host/X.zip" "/tmp/out" 3 [] 1%nat RequestException
           (zip_request "https://host/X.zip")).
  - reflexivity.
  - simpl. lia.
  - intros j Hj. destruct j as [|j]; [|lia].
    eexists. split; [reflexivity|]. simpl. discriminate.
  - reflexivity.
Defined.

Lemma download_without_success_witness :
  exists e,
    download_artifact (scripted [500; 503; 302] "moved") 200 join [] "https://host/X.zip"
      "/tmp/out" 3 []
    = (Raise e, ([] ++ repeat (Sent (zip_request "https://host/X.zip")) 3)%list, None)
    /\ (3%nat = O -> e = TimeoutError "Failed to download artifact")
    /\ (forall r, (0 < 3)%nat ->
          scripted [500; 503; 302] "moved"
            ([] ++ repeat (Sent (zip_request "https://host/X.zip")) (3 - 1))%list
            (zip_request "https://host/X.zip") = Responded r ->
          e = if response_ok r then GenericException (content r)
              else TimeoutError "Failed to download artifact").
Proof.
  apply (download_without_success_raises_by_the_last_response
           (scripted [500; 503; 302] "moved") 200 join [] "https://host/X.zip" "/tmp/out"
           3 [] (zip_request "https://host/X.zip") 3%nat).
  - reflexivity.
  - reflexivity.
  - intros j Hj. destruct j as [|[|[|j]]]; [| | |lia].
    + eexists. split; [reflexivity|]. simpl. discriminate.
    + eexists. split; [reflexivity|]. simpl. discriminate.
    + eexists. split; [reflexivity|]. simpl. discriminate.
Defined.

(** A last answer 302 raises [Exception] with its body; a last answer 503
    raises [TimeoutError]; and without attempts nothing is sent. *)
Example download_failures :
  fst (fst (download_artifact (scripted [500; 503; 302] "moved") 200 join []
              "https://host/X.zip" "/tmp/out" 3 []))
  = Raise (GenericException "moved")
  /\ fst (fst (download_artifact (scripted [500; 404; 503] "busy") 200 join []
                 "https://host/X.zip" "/tmp/out" 3 []))
     = Raise (TimeoutError "Failed to download artifact")
  /\ download_artifact (always 200 "PK-bytes") 200 join [] "https://host/X.zip"
       "/tmp/out" 0 []
     = (Raise (TimeoutError "Failed to download artifact"), [], None).
Proof. repeat split; reflexivity. Qed.

End MoreRuns.
